(** * Shared RISC-V intrinsics: [crates/core_arch/src/riscv_shared/mod.rs]

    Every intrinsic of the module is one [asm!] statement: a template, an
    ordered list of register operands ([in(reg) v], [out(reg) x]) and a list
    of options ([nomem], [readonly], [nostack]).  The development embeds

    - the [asm!] statements themselves, as the source writes them
      (templates over the hardwired-zero register [x0] and the positional
      placeholder [{}]);
    - the assembler step that turns a template with allocated registers into
      32-bit instruction words (the [.insn r]/[.insn i] directives and the
      mnemonics the module uses);
    - the RV64 hart state those words act on (integer registers, the guest
      memory seen through the VS-stage translation, [fcsr], and the trace of
      retired words and translation-cache fences);
    - each Rust function as an [intrinsic]: its [unsafe] marker, its [asm!]
      statement, and the conversion of the output register to the Rust
      return type. *)

From Stdlib Require Import ZArith String Lia Btauto.
From stdpp Require Import base gmap list.

Local Open Scope Z_scope.

(** ** Machine words *)

Definition XLEN : Z := 64.

(** A register holds an [XLEN]-bit value. *)
Definition wrap (v : Z) : Z := v mod 2 ^ XLEN.

(** Value of the [w] low bits of [v], read unsigned / two's complement. *)
Definition zext (w v : Z) : Z := v mod 2 ^ w.
Definition sext (w v : Z) : Z :=
  let u := v mod 2 ^ w in if u <? 2 ^ (w - 1) then u else u - 2 ^ w.

Definition usize (v : Z) : Prop := 0 <= v < 2 ^ XLEN.
Definition u32 (v : Z) : Prop := 0 <= v < 2 ^ 32.

(** Bit field [lo .. lo+len) of an instruction word. *)
Definition field (w lo len : Z) : Z := Z.land (Z.shiftr w lo) (Z.ones len).

(** ** Instruction encoding (RISC-V base formats) *)

(** R-type: [funct7 | rs2 | rs1 | funct3 | rd | opcode]; the fields are
    disjoint, so they are summed. *)
Definition enc_r (opc f3 f7 rd rs1 rs2 : Z) : Z :=
  opc + Z.shiftl rd 7 + Z.shiftl f3 12 + Z.shiftl rs1 15
  + Z.shiftl rs2 20 + Z.shiftl f7 25.

(** I-type: [imm[11:0] | rs1 | funct3 | rd | opcode]. *)
Definition enc_i (opc f3 rd rs1 imm : Z) : Z :=
  opc + Z.shiftl rd 7 + Z.shiftl f3 12 + Z.shiftl rs1 15
  + Z.shiftl (Z.land imm (Z.ones 12)) 20.

Record decoded := Dec {
  d_opcode : Z; d_rd : Z; d_funct3 : Z; d_rs1 : Z; d_rs2 : Z;
  d_funct7 : Z; d_imm : Z }.

Definition decode (w : Z) : decoded :=
  {| d_opcode := field w 0 7; d_rd := field w 7 5; d_funct3 := field w 12 3;
     d_rs1 := field w 15 5; d_rs2 := field w 20 5; d_funct7 := field w 25 7;
     d_imm := field w 20 12 |}.

(** ** [asm!] statements *)

(** A register position of a template: the literal [x0] or a [{}]
    placeholder, bound positionally to the next operand. *)
Inductive treg := X0 | Hole.

Inductive tinsn :=
  | Insn_r (opc f3 f7 : Z) (rd rs1 rs2 : treg)   (** [.insn r opc, f3, f7, rd, rs1, rs2] *)
  | Insn_i (opc f3 : Z) (rd rs1 : treg) (imm : Z) (** [.insn i opc, f3, rd, rs1, imm] *)
  | Mn (name : string) (args : list treg).       (** a mnemonic with its operands *)

Inductive operand := In_reg (v : Z) | Out_reg.

Inductive asm_opt := Nomem | Readonly | Nostack.

Record asm_stmt := Asm { tmpl : list tinsn; opnds : list operand; opts : list asm_opt }.

(** A Rust intrinsic: its [unsafe] marker, its [asm!] statement and the
    conversion of the output operands to the return value. *)
Record intrinsic (A : Type) := Intrinsic {
  is_unsafe : bool; body : asm_stmt; result : list Z -> A }.
Arguments Intrinsic {A}.
Arguments is_unsafe {A}.
Arguments body {A}.
Arguments result {A}.

(** ** The assembler *)

(** The register positions of an instruction, in template order. *)
Definition tregs (i : tinsn) : list treg :=
  match i with
  | Insn_r _ _ _ rd rs1 rs2 => [rd; rs1; rs2]
  | Insn_i _ _ rd rs1 _ => [rd; rs1]
  | Mn _ args => args
  end.

(** Register numbers of the positions: [x0] is register 0, the [k]-th
    placeholder of the statement is the register allocated to operand [k]. *)
Fixpoint resolve (alloc : list Z) (k : nat) (rs : list treg) : option (list Z * nat) :=
  match rs with
  | [] => Some ([], k)
  | X0 :: rs' =>
      match resolve alloc k rs' with
      | Some (l, k') => Some (0 :: l, k')
      | None => None
      end
  | Hole :: rs' =>
      match alloc !! k with
      | Some r =>
          match resolve alloc (S k) rs' with
          | Some (l, k') => Some (r :: l, k')
          | None => None
          end
      | None => None
      end
  end.

(** The mnemonics of the module and the words the assembler emits for them
    (pseudo-instructions expanded: [nop] is [addi x0, x0, 0]; [sfence.vma]
    with fewer operands takes [x0] for the missing ones; the float CSR
    mnemonics are [csrrs]/[csrrw] on [fflags] (1), [frm] (2), [fcsr] (3)). *)
Definition assemble_mn (m : string) (args : list Z) : option Z :=
  if String.eqb m "nop" then
    match args with [] => Some (enc_i 0x13 0 0 0 0) | _ => None end
  else if String.eqb m "wfi" then
    match args with [] => Some (enc_i 0x73 0 0 0 0x105) | _ => None end
  else if String.eqb m "fence.i" then
    match args with [] => Some (enc_i 0x0F 1 0 0 0) | _ => None end
  else if String.eqb m "sfence.vma" then
    match args with
    | [] => Some (enc_r 0x73 0 0x09 0 0 0)
    | [rs1] => Some (enc_r 0x73 0 0x09 0 rs1 0)
    | [rs1; rs2] => Some (enc_r 0x73 0 0x09 0 rs1 rs2)
    | _ => None
    end
  else if String.eqb m "frcsr" then
    match args with [rd] => Some (enc_i 0x73 2 rd 0 3) | _ => None end
  else if String.eqb m "fscsr" then
    match args with [rd; rs] => Some (enc_i 0x73 1 rd rs 3) | _ => None end
  else if String.eqb m "frrm" then
    match args with [rd] => Some (enc_i 0x73 2 rd 0 2) | _ => None end
  else if String.eqb m "fsrm" then
    match args with [rd; rs] => Some (enc_i 0x73 1 rd rs 2) | _ => None end
  else if String.eqb m "frflags" then
    match args with [rd] => Some (enc_i 0x73 2 rd 0 1) | _ => None end
  else if String.eqb m "fsflags" then
    match args with [rd; rs] => Some (enc_i 0x73 1 rd rs 1) | _ => None end
  else None.

Definition assemble_insn (i : tinsn) (rs : list Z) : option Z :=
  match i, rs with
  | Insn_r opc f3 f7 _ _ _, [rd; rs1; rs2] => Some (enc_r opc f3 f7 rd rs1 rs2)
  | Insn_i opc f3 _ _ imm, [rd; rs1] => Some (enc_i opc f3 rd rs1 imm)
  | Mn m _, args => assemble_mn m args
  | _, _ => None
  end.

Fixpoint assemble_from (alloc : list Z) (k : nat) (t : list tinsn) : option (list Z) :=
  match t with
  | [] => Some []
  | i :: t' =>
      match resolve alloc k (tregs i) with
      | Some (rs, k') =>
          match assemble_insn i rs, assemble_from alloc k' t' with
          | Some w, Some ws => Some (w :: ws)
          | _, _ => None
          end
      | None => None
      end
  end.

Definition assemble (alloc : list Z) (t : list tinsn) : option (list Z) :=
  assemble_from alloc 0 t.

(** A register allocation for the operands of a statement: one general
    register per operand, never [x0], pairwise distinct (all operands are
    [in]/[out], none [lateout]). *)
Fixpoint nodupb (l : list Z) : bool :=
  match l with
  | [] => true
  | r :: l' => negb (existsb (Z.eqb r) l') && nodupb l'
  end.

Definition alloc_ok (alloc : list Z) (n : nat) : bool :=
  Nat.eqb (length alloc) n
  && forallb (fun r => (1 <=? r) && (r <=? 31)) alloc
  && nodupb alloc.

Definition valid_alloc {A} (f : intrinsic A) (alloc : list Z) : Prop :=
  alloc_ok alloc (length (opnds (body f))) = true.

(** ** The hart *)

Inductive fence_kind :=
  | SFENCE_VMA | SINVAL_VMA | HFENCE_VVMA | HFENCE_GVMA | HINVAL_VVMA
  | HINVAL_GVMA | SFENCE_W_INVAL | SFENCE_INVAL_IR.

(** A translation-cache fence as the hart performs it: an operand given as
    [x0] selects "all" ([None]); any other register selects the value it
    holds. *)
Record fence_ev := Fence { f_kind : fence_kind; f_addr : option Z; f_id : option Z }.

(** [gmem] is guest memory as seen by an access with [V=1] (VS-stage and
    G-stage translation applied); an address without a byte raises a guest
    page fault.  [fcsr] holds [fflags] in bits 0..4 and [frm] in bits 5..7;
    bits 8..31 are reserved (read as zero, writes ignored). *)
Record state := St {
  regs : Z -> Z; gmem : gmap Z Z; fcsr : Z;
  retired : list Z; fences : list fence_ev }.

Inductive trap := Illegal_instruction | Guest_page_fault (a : Z) | Assembler_error.

Inductive outcome (A : Type) := Ok (a : A) | Trap (t : trap).
Arguments Ok {A}.
Arguments Trap {A}.

Definition reg_read (rf : Z -> Z) (r : Z) : Z := if r =? 0 then 0 else rf r.
Definition reg_write (rf : Z -> Z) (r v : Z) : Z -> Z :=
  if r =? 0 then rf else fun r' => if r' =? r then wrap v else rf r'.

Definition set_regs (st : state) (rf : Z -> Z) : state :=
  St rf (gmem st) (fcsr st) (retired st) (fences st).
Definition set_gmem (st : state) (m : gmap Z Z) : state :=
  St (regs st) m (fcsr st) (retired st) (fences st).
Definition set_fcsr (st : state) (v : Z) : state :=
  St (regs st) (gmem st) v (retired st) (fences st).
Definition retire (st : state) (w : Z) : state :=
  St (regs st) (gmem st) (fcsr st) (retired st ++ [w]) (fences st).
Definition push_fence (st : state) (e : fence_ev) : state :=
  St (regs st) (gmem st) (fcsr st) (retired st) (fences st ++ [e]).

Definition xr (st : state) (r : Z) : Z := reg_read (regs st) r.
Definition xw (st : state) (r v : Z) : state := set_regs st (reg_write (regs st) r v).

(** The float CSRs: [fflags] (1), [frm] (2), [fcsr] (3). *)
Definition csr_read (st : state) (csr : Z) : option Z :=
  if csr =? 1 then Some (Z.land (fcsr st) 31)
  else if csr =? 2 then Some (Z.land (Z.shiftr (fcsr st) 5) 7)
  else if csr =? 3 then Some (Z.land (fcsr st) 255)
  else None.

Definition csr_write (st : state) (csr v : Z) : state :=
  if csr =? 1 then set_fcsr st (Z.lor (Z.land (fcsr st) 0xE0) (Z.land v 31))
  else if csr =? 2 then set_fcsr st (Z.lor (Z.land (fcsr st) 0x1F) (Z.shiftl (Z.land v 7) 5))
  else set_fcsr st (Z.land v 255).

(** Guest memory, little-endian, addresses wrapping at [2^XLEN]. *)
Fixpoint load_bytes (m : gmap Z Z) (a : Z) (n : nat) : option Z :=
  match n with
  | O => Some 0
  | S n' =>
      match m !! a, load_bytes m (wrap (a + 1)) n' with
      | Some b, Some rest => Some (Z.land b 255 + 256 * rest)
      | _, _ => None
      end
  end.

Fixpoint store_bytes (m : gmap Z Z) (a v : Z) (n : nat) : option (gmap Z Z) :=
  match n with
  | O => Some m
  | S n' =>
      match m !! a with
      | Some _ => store_bytes (<[a := Z.land v 255]> m) (wrap (a + 1)) (Z.shiftr v 8) n'
      | None => None
      end
  end.

(** SYSTEM, funct3 = 0, R-type: the translation-cache fences by funct7. *)
Definition fence_kind_of (f7 : Z) : option fence_kind :=
  if f7 =? 0x09 then Some SFENCE_VMA
  else if f7 =? 0x0B then Some SINVAL_VMA
  else if f7 =? 0x11 then Some HFENCE_VVMA
  else if f7 =? 0x31 then Some HFENCE_GVMA
  else if f7 =? 0x13 then Some HINVAL_VVMA
  else if f7 =? 0x33 then Some HINVAL_GVMA
  else None.

(** SYSTEM, funct3 = 4: the hypervisor loads, by funct7 and rs2: width in
    bytes and whether the value is sign-extended.  [HLVX] differs from
    [HLV] only in the permission it checks (execute instead of read). *)
Definition guest_load (f7 rs2 : Z) : option (nat * bool) :=
  if f7 =? 0x30 then (if rs2 =? 0 then Some (1%nat, true)        (* HLV.B *)
                      else if rs2 =? 1 then Some (1%nat, false) (* HLV.BU *)
                      else None)
  else if f7 =? 0x32 then (if rs2 =? 0 then Some (2%nat, true)   (* HLV.H *)
                      else if rs2 =? 1 then Some (2%nat, false) (* HLV.HU *)
                      else if rs2 =? 3 then Some (2%nat, false) (* HLVX.HU *)
                      else None)
  else if f7 =? 0x34 then (if rs2 =? 0 then Some (4%nat, true)   (* HLV.W *)
                      else if rs2 =? 1 then Some (4%nat, false) (* HLV.WU *)
                      else if rs2 =? 3 then Some (4%nat, false) (* HLVX.WU *)
                      else None)
  else if f7 =? 0x36 then (if rs2 =? 0 then Some (8%nat, true)   (* HLV.D *)
                      else None)
  else None.

(** The hypervisor stores [HSV.B/H/W/D], by funct7: width in bytes. *)
Definition guest_store (f7 : Z) : option nat :=
  if f7 =? 0x31 then Some 1%nat
  else if f7 =? 0x33 then Some 2%nat
  else if f7 =? 0x35 then Some 4%nat
  else if f7 =? 0x37 then Some 8%nat
  else None.

Definition scope (st : state) (r : Z) : option Z :=
  if r =? 0 then None else Some (xr st r).

Definition step (w : Z) (st : state) : outcome state :=
  let d := decode w in
  let rd := d_rd d in let rs1 := d_rs1 d in let rs2 := d_rs2 d in
  let f3 := d_funct3 d in let f7 := d_funct7 d in let imm := d_imm d in
  if d_opcode d =? 0x13 then
    (* OP-IMM: only ADDI is used (as [nop]) *)
    if f3 =? 0 then Ok (xw st rd (xr st rs1 + sext 12 imm)) else Trap Illegal_instruction
  else if d_opcode d =? 0x0F then
    (* MISC-MEM: FENCE (and its PAUSE hint), FENCE.I; no register or memory effect *)
    if (f3 =? 0) || (f3 =? 1) then Ok st else Trap Illegal_instruction
  else if d_opcode d =? 0x73 then
    if f3 =? 0 then
      if negb (rd =? 0) then Trap Illegal_instruction else
      match fence_kind_of f7 with
      | Some k => Ok (push_fence st (Fence k (scope st rs1) (scope st rs2)))
      | None =>
          if (f7 =? 0x0C) && (rs1 =? 0) && (rs2 =? 0) then
            Ok (push_fence st (Fence SFENCE_W_INVAL None None))
          else if (f7 =? 0x0C) && (rs1 =? 0) && (rs2 =? 1) then
            Ok (push_fence st (Fence SFENCE_INVAL_IR None None))
          else if (imm =? 0x105) && (rs1 =? 0) then Ok st   (* WFI *)
          else Trap Illegal_instruction
      end
    else if f3 =? 4 then
      match guest_load f7 rs2 with
      | Some (n, signed) =>
          match load_bytes (gmem st) (xr st rs1) n with
          | Some v => Ok (xw st rd (if signed then sext (8 * Z.of_nat n) v else v))
          | None => Trap (Guest_page_fault (xr st rs1))
          end
      | None =>
          match guest_store f7 with
          | Some n =>
              if negb (rd =? 0) then Trap Illegal_instruction else
              match store_bytes (gmem st) (xr st rs1) (xr st rs2) n with
              | Some m => Ok (set_gmem st m)
              | None => Trap (Guest_page_fault (xr st rs1))
              end
          | None => Trap Illegal_instruction
          end
      end
    else if f3 =? 1 then
      (* CSRRW *)
      match csr_read st imm with
      | Some old => Ok (xw (csr_write st imm (xr st rs1)) rd old)
      | None => Trap Illegal_instruction
      end
    else if f3 =? 2 then
      (* CSRRS *)
      match csr_read st imm with
      | Some old =>
          Ok (xw (if rs1 =? 0 then st else csr_write st imm (Z.lor old (xr st rs1))) rd old)
      | None => Trap Illegal_instruction
      end
    else Trap Illegal_instruction
  else Trap Illegal_instruction.

(** Executing a word retires it first. *)
Definition exec (w : Z) (st : state) : outcome state := step w (retire st w).

Fixpoint exec_all (ws : list Z) (st : state) : outcome state :=
  match ws with
  | [] => Ok st
  | w :: ws' =>
      match exec w st with
      | Ok st' => exec_all ws' st'
      | Trap t => Trap t
      end
  end.

(** ** Running an [asm!] statement *)

(** Before the template runs, each [in(reg) v] operand is placed in its
    register; after it, each [out(reg)] operand is read from its register. *)
Fixpoint bind_inputs (alloc : list Z) (ops : list operand) (rf : Z -> Z) : Z -> Z :=
  match alloc, ops with
  | r :: alloc', In_reg v :: ops' => bind_inputs alloc' ops' (reg_write rf r v)
  | _ :: alloc', Out_reg :: ops' => bind_inputs alloc' ops' rf
  | _, _ => rf
  end.

Fixpoint read_outputs (alloc : list Z) (ops : list operand) (rf : Z -> Z) : list Z :=
  match alloc, ops with
  | r :: alloc', Out_reg :: ops' => reg_read rf r :: read_outputs alloc' ops' rf
  | _ :: alloc', In_reg _ :: ops' => read_outputs alloc' ops' rf
  | _, _ => []
  end.

Definition call {A} (f : intrinsic A) (alloc : list Z) (st : state) : outcome (A * state) :=
  let s := body f in
  match assemble alloc (tmpl s) with
  | None => Trap Assembler_error
  | Some ws =>
      match exec_all ws (set_regs st (bind_inputs alloc (opnds s) (regs st))) with
      | Ok st' => Ok (result f (read_outputs alloc (opnds s) (regs st')), st')
      | Trap t => Trap t
      end
  end.

(** The Rust integer types of the outputs: the value of the low bits. *)
Definition as_i8 := sext 8.
Definition as_u8 := zext 8.
Definition as_i16 := sext 16.
Definition as_u16 := zext 16.
Definition as_i32 := sext 32.
Definition as_u32 := zext 32.

(** [let value: T; asm!(..., out(reg) value, ...); value] *)
Definition ret (conv : Z -> Z) (vs : list Z) : Z :=
  match vs with v :: _ => conv v | [] => 0 end.
Definition no_ret (vs : list Z) : unit := tt.

(** ** The intrinsics of [riscv_shared/mod.rs] *)

Definition pause : intrinsic unit :=
  Intrinsic false (Asm [Insn_i 0x0F 0 X0 X0 0x010] [] [Nomem; Nostack]) no_ret.
Definition nop : intrinsic unit :=
  Intrinsic false (Asm [Mn "nop" []] [] [Nomem; Nostack]) no_ret.
Definition wfi : intrinsic unit :=
  Intrinsic true (Asm [Mn "wfi" []] [] [Nomem; Nostack]) no_ret.
Definition fence_i : intrinsic unit :=
  Intrinsic true (Asm [Mn "fence.i" []] [] [Nostack]) no_ret.

Definition sfence_vma (vaddr asid : Z) : intrinsic unit :=
  Intrinsic true (Asm [Mn "sfence.vma" [Hole; Hole]] [In_reg vaddr; In_reg asid] [Nostack]) no_ret.
Definition sfence_vma_vaddr (vaddr : Z) : intrinsic unit :=
  Intrinsic true (Asm [Mn "sfence.vma" [Hole; X0]] [In_reg vaddr] [Nostack]) no_ret.
Definition sfence_vma_asid (asid : Z) : intrinsic unit :=
  Intrinsic true (Asm [Mn "sfence.vma" [X0; Hole]] [In_reg asid] [Nostack]) no_ret.
Definition sfence_vma_all : intrinsic unit :=
  Intrinsic true (Asm [Mn "sfence.vma" []] [] [Nostack]) no_ret.

Definition sinval_vma (vaddr asid : Z) : intrinsic unit :=
  Intrinsic true (Asm [Insn_r 0x73 0 0x0B X0 Hole Hole] [In_reg vaddr; In_reg asid] [Nostack]) no_ret.
Definition sinval_vma_vaddr (vaddr : Z) : intrinsic unit :=
  Intrinsic true (Asm [Insn_r 0x73 0 0x0B X0 Hole X0] [In_reg vaddr] [Nostack]) no_ret.
Definition sinval_vma_asid (asid : Z) : intrinsic unit :=
  Intrinsic true (Asm [Insn_r 0x73 0 0x0B X0 X0 Hole] [In_reg asid] [Nostack]) no_ret.
Definition sinval_vma_all : intrinsic unit :=
  Intrinsic true (Asm [Insn_r 0x73 0 0x0B X0 X0 X0] [] [Nostack]) no_ret.

Definition sfence_w_inval : intrinsic unit :=
  Intrinsic true (Asm [Insn_i 0x73 0 X0 X0 0x180] [] [Nostack]) no_ret.
Definition sfence_inval_ir : intrinsic unit :=
  Intrinsic true (Asm [Insn_i 0x73 0 X0 X0 0x181] [] [Nostack]) no_ret.

Definition hlv_b (src : Z) : intrinsic Z :=
  Intrinsic true (Asm [Insn_i 0x73 0x4 Hole Hole 0x600] [Out_reg; In_reg src] [Readonly; Nostack]) (ret as_i8).
Definition hlv_bu (src : Z) : intrinsic Z :=
  Intrinsic true (Asm [Insn_i 0x73 0x4 Hole Hole 0x601] [Out_reg; In_reg src] [Readonly; Nostack]) (ret as_u8).
Definition hlv_h (src : Z) : intrinsic Z :=
  Intrinsic true (Asm [Insn_i 0x73 0x4 Hole Hole 0x640] [Out_reg; In_reg src] [Readonly; Nostack]) (ret as_i16).
Definition hlv_hu (src : Z) : intrinsic Z :=
  Intrinsic true (Asm [Insn_i 0x73 0x4 Hole Hole 0x641] [Out_reg; In_reg src] [Readonly; Nostack]) (ret as_u16).
Definition hlvx_hu (src : Z) : intrinsic Z :=
  Intrinsic true (Asm [Insn_i 0x73 0x4 Hole Hole 0x643] [Out_reg; In_reg src] [Readonly; Nostack]) (ret as_u16).
Definition hlv_w (src : Z) : intrinsic Z :=
  Intrinsic true (Asm [Insn_i 0x73 0x4 Hole Hole 0x680] [Out_reg; In_reg src] [Readonly; Nostack]) (ret as_i32).
Definition hlvx_wu (src : Z) : intrinsic Z :=
  Intrinsic true (Asm [Insn_i 0x73 0x4 Hole Hole 0x683] [Out_reg; In_reg src] [Readonly; Nostack]) (ret as_u32).

Definition hsv_b (dst src : Z) : intrinsic unit :=
  Intrinsic true (Asm [Insn_r 0x73 0x4 0x31 X0 Hole Hole] [In_reg dst; In_reg src] [Nostack]) no_ret.
Definition hsv_h (dst src : Z) : intrinsic unit :=
  Intrinsic true (Asm [Insn_r 0x73 0x4 0x33 X0 Hole Hole] [In_reg dst; In_reg src] [Nostack]) no_ret.
Definition hsv_w (dst src : Z) : intrinsic unit :=
  Intrinsic true (Asm [Insn_r 0x73 0x4 0x35 X0 Hole Hole] [In_reg dst; In_reg src] [Nostack]) no_ret.

Definition hfence_vvma (vaddr asid : Z) : intrinsic unit :=
  Intrinsic true (Asm [Insn_r 0x73 0 0x11 X0 Hole Hole] [In_reg vaddr; In_reg asid] [Nostack]) no_ret.
Definition hfence_vvma_vaddr (vaddr : Z) : intrinsic unit :=
  Intrinsic true (Asm [Insn_r 0x73 0 0x11 X0 Hole X0] [In_reg vaddr] [Nostack]) no_ret.
Definition hfence_vvma_asid (asid : Z) : intrinsic unit :=
  Intrinsic true (Asm [Insn_r 0x73 0 0x11 X0 X0 Hole] [In_reg asid] [Nostack]) no_ret.
Definition hfence_vvma_all : intrinsic unit :=
  Intrinsic true (Asm [Insn_r 0x73 0 0x11 X0 X0 X0] [] [Nostack]) no_ret.

Definition hfence_gvma (gaddr vmid : Z) : intrinsic unit :=
  Intrinsic true (Asm [Insn_r 0x73 0 0x31 X0 Hole Hole] [In_reg gaddr; In_reg vmid] [Nostack]) no_ret.
Definition hfence_gvma_gaddr (gaddr : Z) : intrinsic unit :=
  Intrinsic true (Asm [Insn_r 0x73 0 0x31 X0 Hole X0] [In_reg gaddr] [Nostack]) no_ret.
Definition hfence_gvma_vmid (vmid : Z) : intrinsic unit :=
  Intrinsic true (Asm [Insn_r 0x73 0 0x31 X0 X0 Hole] [In_reg vmid] [Nostack]) no_ret.
Definition hfence_gvma_all : intrinsic unit :=
  Intrinsic true (Asm [Insn_r 0x73 0 0x31 X0 X0 X0] [] [Nostack]) no_ret.

Definition hinval_vvma (vaddr asid : Z) : intrinsic unit :=
  Intrinsic true (Asm [Insn_r 0x73 0 0x13 X0 Hole Hole] [In_reg vaddr; In_reg asid] [Nostack]) no_ret.
Definition hinval_vvma_vaddr (vaddr : Z) : intrinsic unit :=
  Intrinsic true (Asm [Insn_r 0x73 0 0x13 X0 Hole X0] [In_reg vaddr] [Nostack]) no_ret.
Definition hinval_vvma_asid (asid : Z) : intrinsic unit :=
  Intrinsic true (Asm [Insn_r 0x73 0 0x13 X0 X0 Hole] [In_reg asid] [Nostack]) no_ret.
Definition hinval_vvma_all : intrinsic unit :=
  Intrinsic true (Asm [Insn_r 0x73 0 0x13 X0 X0 X0] [] [Nostack]) no_ret.

Definition hinval_gvma (gaddr vmid : Z) : intrinsic unit :=
  Intrinsic true (Asm [Insn_r 0x73 0 0x33 X0 Hole Hole] [In_reg gaddr; In_reg vmid] [Nostack]) no_ret.
Definition hinval_gvma_gaddr (gaddr : Z) : intrinsic unit :=
  Intrinsic true (Asm [Insn_r 0x73 0 0x33 X0 Hole X0] [In_reg gaddr] [Nostack]) no_ret.
Definition hinval_gvma_vmid (vmid : Z) : intrinsic unit :=
  Intrinsic true (Asm [Insn_r 0x73 0 0x33 X0 X0 Hole] [In_reg vmid] [Nostack]) no_ret.
Definition hinval_gvma_all : intrinsic unit :=
  Intrinsic true (Asm [Insn_r 0x73 0 0x33 X0 X0 X0] [] [Nostack]) no_ret.

Definition frcsr : intrinsic Z :=
  Intrinsic false (Asm [Mn "frcsr" [Hole]] [Out_reg] [Nomem; Nostack]) (ret as_u32).
Definition fscsr (value : Z) : intrinsic Z :=
  Intrinsic false (Asm [Mn "fscsr" [Hole; Hole]] [Out_reg; In_reg value] [Nomem; Nostack]) (ret as_u32).
Definition frrm : intrinsic Z :=
  Intrinsic false (Asm [Mn "frrm" [Hole]] [Out_reg] [Nomem; Nostack]) (ret as_u32).
Definition fsrm (value : Z) : intrinsic Z :=
  Intrinsic false (Asm [Mn "fsrm" [Hole; Hole]] [Out_reg; In_reg value] [Nomem; Nostack]) (ret as_u32).
Definition frflags : intrinsic Z :=
  Intrinsic false (Asm [Mn "frflags" [Hole]] [Out_reg] [Nomem; Nostack]) (ret as_u32).
Definition fsflags (value : Z) : intrinsic Z :=
  Intrinsic false (Asm [Mn "fsflags" [Hole; Hole]] [Out_reg; In_reg value] [Nomem; Nostack]) (ret as_u32).


(** ** Views used by the statements *)

(** The six translation-cache families with four scope variants each, and
    the source function for each variant: [Some] operand supplied, [None]
    operand elided. *)
Inductive family := Sfence_vma | Sinval_vma | Hfence_vvma | Hfence_gvma | Hinval_vvma | Hinval_gvma.

Definition family_funct7 (f : family) : Z :=
  match f with
  | Sfence_vma => 0x09 | Sinval_vma => 0x0B | Hfence_vvma => 0x11
  | Hfence_gvma => 0x31 | Hinval_vvma => 0x13 | Hinval_gvma => 0x33
  end.

Definition variant (f : family) (a i : option Z) : intrinsic unit :=
  match f, a, i with
  | Sfence_vma, Some x, Some y => sfence_vma x y
  | Sfence_vma, Some x, None => sfence_vma_vaddr x
  | Sfence_vma, None, Some y => sfence_vma_asid y
  | Sfence_vma, None, None => sfence_vma_all
  | Sinval_vma, Some x, Some y => sinval_vma x y
  | Sinval_vma, Some x, None => sinval_vma_vaddr x
  | Sinval_vma, None, Some y => sinval_vma_asid y
  | Sinval_vma, None, None => sinval_vma_all
  | Hfence_vvma, Some x, Some y => hfence_vvma x y
  | Hfence_vvma, Some x, None => hfence_vvma_vaddr x
  | Hfence_vvma, None, Some y => hfence_vvma_asid y
  | Hfence_vvma, None, None => hfence_vvma_all
  | Hfence_gvma, Some x, Some y => hfence_gvma x y
  | Hfence_gvma, Some x, None => hfence_gvma_gaddr x
  | Hfence_gvma, None, Some y => hfence_gvma_vmid y
  | Hfence_gvma, None, None => hfence_gvma_all
  | Hinval_vvma, Some x, Some y => hinval_vvma x y
  | Hinval_vvma, Some x, None => hinval_vvma_vaddr x
  | Hinval_vvma, None, Some y => hinval_vvma_asid y
  | Hinval_vvma, None, None => hinval_vvma_all
  | Hinval_gvma, Some x, Some y => hinval_gvma x y
  | Hinval_gvma, Some x, None => hinval_gvma_gaddr x
  | Hinval_gvma, None, Some y => hinval_gvma_vmid y
  | Hinval_gvma, None, None => hinval_gvma_all
  end.

(** What an operand field of an emitted word holds: the hardwired-zero
    register, or a general register and the value bound into it. *)
Inductive opview := Zero_reg | Bound (v : Z).

Definition view (rf : Z -> Z) (r : Z) : opview :=
  if r =? 0 then Zero_reg else Bound (reg_read rf r).

Definition expected (o : option Z) : opview :=
  match o with None => Zero_reg | Some v => Bound v end.

Definition opt_usize (o : option Z) : Prop :=
  match o with None => True | Some v => usize v end.

(** The word an intrinsic emits and the register file it runs on. *)
Definition emitted {A} (f : intrinsic A) (alloc : list Z) : option (list Z) :=
  assemble alloc (tmpl (body f)).
Definition bound_regs {A} (f : intrinsic A) (alloc : list Z) (rf : Z -> Z) : Z -> Z :=
  bind_inputs alloc (opnds (body f)) rf.

(** Guest bytes [a .. a+n) are all present. *)
Definition mapped (m : gmap Z Z) (a : Z) (n : nat) : Prop :=
  forall k, (k < n)%nat -> is_Some (m !! wrap (a + Z.of_nat k)).

(** The seven hypervisor loads. *)
Inductive guest_load_fn := HLV_B | HLV_BU | HLV_H | HLV_HU | HLVX_HU | HLV_W | HLVX_WU.

Definition load_fn (l : guest_load_fn) : Z -> intrinsic Z :=
  match l with
  | HLV_B => hlv_b | HLV_BU => hlv_bu | HLV_H => hlv_h | HLV_HU => hlv_hu
  | HLVX_HU => hlvx_hu | HLV_W => hlv_w | HLVX_WU => hlvx_wu
  end.

Definition load_width (l : guest_load_fn) : nat :=
  match l with
  | HLV_B | HLV_BU => 1 | HLV_H | HLV_HU | HLVX_HU => 2 | HLV_W | HLVX_WU => 4
  end.

(** The fence event each translation-cache family performs. *)
Definition family_kind (f : family) : fence_kind :=
  match f with
  | Sfence_vma => SFENCE_VMA | Sinval_vma => SINVAL_VMA
  | Hfence_vvma => HFENCE_VVMA | Hfence_gvma => HFENCE_GVMA
  | Hinval_vvma => HINVAL_VVMA | Hinval_gvma => HINVAL_GVMA
  end.

(** The six floating-point CSR intrinsics, with the argument of the
    writing ones. *)
Inductive fp_csr_fn := FRCSR | FSCSR (v : Z) | FRRM | FSRM (v : Z) | FRFLAGS | FSFLAGS (v : Z).

Definition fp_csr (c : fp_csr_fn) : intrinsic Z :=
  match c with
  | FRCSR => frcsr | FSCSR v => fscsr v | FRRM => frrm
  | FSRM v => fsrm v | FRFLAGS => frflags | FSFLAGS v => fsflags v
  end.

(** The argument is a [u32]. *)
Definition fp_csr_arg (c : fp_csr_fn) : Prop :=
  match c with FSCSR v | FSRM v | FSFLAGS v => u32 v | _ => True end.

(** Width of the field of [fcsr] each one reads: the whole register (8
    defined bits), [frm] (3 bits) or [fflags] (5 bits). *)
Definition fp_csr_bits (c : fp_csr_fn) : Z :=
  match c with
  | FRCSR | FSCSR _ => 8 | FRRM | FSRM _ => 3 | FRFLAGS | FSFLAGS _ => 5
  end.

(** The three hypervisor stores. *)
Inductive guest_store_fn := HSV_B | HSV_H | HSV_W.

Definition store_fn (s : guest_store_fn) : Z -> Z -> intrinsic unit :=
  match s with HSV_B => hsv_b | HSV_H => hsv_h | HSV_W => hsv_w end.

Definition store_width (s : guest_store_fn) : nat :=
  match s with HSV_B => 1 | HSV_H => 2 | HSV_W => 4 end.

Definition store_funct7 (s : guest_store_fn) : Z :=
  match s with HSV_B => 0x31 | HSV_H => 0x33 | HSV_W => 0x35 end.

(** [v] is a value of a [k]-bit signed Rust integer type. *)
Definition signed_fits (k v : Z) : Prop := - 2 ^ (k - 1) <= v < 2 ^ (k - 1).

(** A hart whose guest memory maps the word at 0x2000, low byte 0xFF. *)
Definition sample_hart : state :=
  St (fun _ => 0)
     (<[0x2000 := 0xFF]> (<[0x2001 := 0]> (<[0x2002 := 0]> (<[0x2003 := 0]> ∅))))
     0x3A [] [].

(** ** Encoding lemmas *)

Lemma field_div_mod (w lo len : Z) :
  0 <= lo -> 0 <= len -> field w lo len = (w / 2 ^ lo) mod 2 ^ len.
Proof.
  intros Hlo Hlen. unfold field.
  rewrite Z.land_ones by exact Hlen.
  rewrite Z.shiftr_div_pow2 by exact Hlo.
  reflexivity.
Qed.

Lemma div_low (lo x k : Z) :
  0 <= k -> 0 <= lo < 2 ^ k -> (lo + 2 ^ k * x) / 2 ^ k = x.
Proof.
  intros Hk Hlo.
  assert (0 < 2 ^ k) by (apply Z.pow_pos_nonneg; lia).
  rewrite Z.add_comm, Z.mul_comm, Z.div_add_l by lia.
  rewrite Z.div_small by lia. lia.
Qed.

Lemma mod_low (a b n : Z) :
  0 <= n -> 0 <= a < 2 ^ n -> (a + 2 ^ n * b) mod 2 ^ n = a.
Proof.
  intros Hn Ha.
  rewrite Z.mul_comm, Z_mod_plus_full.
  apply Z.mod_small; exact Ha.
Qed.

Lemma decode_enc_r (opc f3 f7 rd rs1 rs2 : Z) :
  0 <= opc < 128 -> 0 <= f3 < 8 -> 0 <= f7 < 128 ->
  0 <= rd < 32 -> 0 <= rs1 < 32 -> 0 <= rs2 < 32 ->
  decode (enc_r opc f3 f7 rd rs1 rs2) = Dec opc rd f3 rs1 rs2 f7 (rs2 + 32 * f7).
Proof.
  intros. unfold decode, enc_r.
  rewrite !Z.shiftl_mul_pow2 by lia.
  rewrite !field_div_mod by lia.
  f_equal.
  - replace (opc + _ + _ + _ + _ + _)
      with (0 + 2 ^ 0 * (opc + 2 ^ 7 * (rd + 32 * f3 + 256 * rs1 + 8192 * rs2 + 262144 * f7)))
      by (cbn; ring).
    rewrite div_low, mod_low; lia.
  - replace (opc + _ + _ + _ + _ + _)
      with (opc + 2 ^ 7 * (rd + 2 ^ 5 * (f3 + 8 * rs1 + 256 * rs2 + 8192 * f7)))
      by (cbn; ring).
    rewrite div_low, mod_low; lia.
  - replace (opc + _ + _ + _ + _ + _)
      with ((opc + 128 * rd) + 2 ^ 12 * (f3 + 2 ^ 3 * (rs1 + 32 * rs2 + 1024 * f7)))
      by (cbn; ring).
    rewrite div_low, mod_low; cbn; lia.
  - replace (opc + _ + _ + _ + _ + _)
      with ((opc + 128 * rd + 4096 * f3) + 2 ^ 15 * (rs1 + 2 ^ 5 * (rs2 + 32 * f7)))
      by (cbn; ring).
    rewrite div_low, mod_low; cbn; lia.
  - replace (opc + _ + _ + _ + _ + _)
      with ((opc + 128 * rd + 4096 * f3 + 32768 * rs1) + 2 ^ 20 * (rs2 + 2 ^ 5 * f7))
      by (cbn; ring).
    rewrite div_low, mod_low; cbn; lia.
  - replace (opc + _ + _ + _ + _ + _)
      with ((opc + 128 * rd + 4096 * f3 + 32768 * rs1 + 1048576 * rs2) + 2 ^ 25 * (f7 + 2 ^ 7 * 0))
      by (cbn; ring).
    rewrite div_low, mod_low; cbn; lia.
  - replace (opc + _ + _ + _ + _ + _)
      with ((opc + 128 * rd + 4096 * f3 + 32768 * rs1) + 2 ^ 20 * ((rs2 + 32 * f7) + 2 ^ 12 * 0))
      by (cbn; ring).
    rewrite div_low, mod_low; cbn; lia.
Qed.

Lemma decode_enc_i (opc f3 rd rs1 imm : Z) :
  0 <= opc < 128 -> 0 <= f3 < 8 -> 0 <= rd < 32 -> 0 <= rs1 < 32 ->
  decode (enc_i opc f3 rd rs1 imm) =
  let i := Z.land imm (Z.ones 12) in Dec opc rd f3 rs1 (i mod 32) (i / 32) i.
Proof.
  intros. unfold decode, enc_i. cbv zeta.
  set (i := Z.land imm (Z.ones 12)).
  assert (Hi : 0 <= i < 4096).
  { unfold i. rewrite Z.land_ones by lia. apply Z.mod_pos_bound. lia. }
  assert (Hdm : i = 32 * (i / 32) + i mod 32) by (apply Z.div_mod; lia).
  assert (0 <= i mod 32 < 32) by (apply Z.mod_pos_bound; lia).
  assert (0 <= i / 32 < 128) by (split; [apply Z.div_pos | apply Z.div_lt_upper_bound]; lia).
  rewrite !Z.shiftl_mul_pow2 by lia.
  rewrite !field_div_mod by lia.
  f_equal.
  - replace (opc + _ + _ + _ + _)
      with (0 + 2 ^ 0 * (opc + 2 ^ 7 * (rd + 32 * f3 + 256 * rs1 + 8192 * i)))
      by (cbn; ring).
    rewrite div_low, mod_low; lia.
  - replace (opc + _ + _ + _ + _)
      with (opc + 2 ^ 7 * (rd + 2 ^ 5 * (f3 + 8 * rs1 + 256 * i)))
      by (cbn; ring).
    rewrite div_low, mod_low; lia.
  - replace (opc + _ + _ + _ + _)
      with ((opc + 128 * rd) + 2 ^ 12 * (f3 + 2 ^ 3 * (rs1 + 32 * i)))
      by (cbn; ring).
    rewrite div_low, mod_low; cbn; lia.
  - replace (opc + _ + _ + _ + _)
      with ((opc + 128 * rd + 4096 * f3) + 2 ^ 15 * (rs1 + 2 ^ 5 * i))
      by (cbn; ring).
    rewrite div_low, mod_low; cbn; lia.
  - replace (opc + _ + _ + _ + _)
      with ((opc + 128 * rd + 4096 * f3 + 32768 * rs1) + 2 ^ 20 * i)
      by (cbn; ring).
    rewrite div_low by (cbn; lia). reflexivity.
  - replace (opc + _ + _ + _ + _)
      with ((opc + 128 * rd + 4096 * f3 + 32768 * rs1 + 1048576 * (i mod 32))
            + 2 ^ 25 * (i / 32 + 2 ^ 7 * 0))
      by (cbn; lia).
    rewrite div_low, mod_low; cbn; lia.
  - replace (opc + _ + _ + _ + _)
      with ((opc + 128 * rd + 4096 * f3 + 32768 * rs1) + 2 ^ 20 * (i + 2 ^ 12 * 0))
      by (cbn; ring).
    rewrite div_low, mod_low; cbn; lia.
Qed.

(** ** Allocation and register-file lemmas *)

Lemma alloc_ok_0 (alloc : list Z) : alloc_ok alloc 0 = true -> alloc = [].
Proof. destruct alloc; cbn; [reflexivity | discriminate]. Qed.

Ltac bool_facts :=
  repeat match goal with
  | H : (_ && _) = true |- _ => apply andb_true_iff in H as [? ?]
  | H : negb _ = true |- _ => apply negb_true_iff in H
  | H : (_ || _) = false |- _ => apply orb_false_iff in H as [? ?]
  | H : (_ <=? _) = true |- _ => apply Z.leb_le in H
  | H : (_ =? _) = false |- _ => apply Z.eqb_neq in H
  end.

Lemma alloc_ok_1 (alloc : list Z) :
  alloc_ok alloc 1 = true -> exists r, alloc = [r] /\ 1 <= r <= 31.
Proof.
  unfold alloc_ok; destruct alloc as [|r [|r' l]]; cbn; try discriminate.
  intros H. bool_facts. exists r. split; [reflexivity | lia].
Qed.

Lemma alloc_ok_2 (alloc : list Z) :
  alloc_ok alloc 2 = true ->
  exists r1 r2, alloc = [r1; r2] /\ 1 <= r1 <= 31 /\ 1 <= r2 <= 31 /\ r1 <> r2.
Proof.
  unfold alloc_ok; destruct alloc as [|r1 [|r2 [|r3 l]]]; cbn; try discriminate.
  intros H. bool_facts. exists r1, r2. split; [reflexivity | lia].
Qed.

Lemma reg_read_write_same (rf : Z -> Z) (r v : Z) :
  r <> 0 -> reg_read (reg_write rf r v) r = wrap v.
Proof.
  intros Hr. unfold reg_read, reg_write.
  rewrite (proj2 (Z.eqb_neq r 0) Hr), Z.eqb_refl. reflexivity.
Qed.

Lemma reg_read_write_other (rf : Z -> Z) (r r' v : Z) :
  r' <> r -> reg_read (reg_write rf r v) r' = reg_read rf r'.
Proof.
  intros Hne. unfold reg_read, reg_write.
  destruct (r =? 0); [reflexivity|].
  rewrite (proj2 (Z.eqb_neq r' r) Hne). reflexivity.
Qed.

Lemma wrap_usize (v : Z) : usize v -> wrap v = v.
Proof. intros Hv. unfold wrap. apply Z.mod_small. exact Hv. Qed.

Ltac alloc_cases H :=
  first [ apply alloc_ok_0 in H as ->
        | apply alloc_ok_1 in H as (?r & -> & ?)
        | apply alloc_ok_2 in H as (?r1 & ?r2 & -> & ? & ? & ?) ].

(** Reading back the operand registers of a bound register file. *)
Ltac read_regs :=
  unfold view, bound_regs; cbn [bind_inputs body opnds];
  repeat rewrite (proj2 (Z.eqb_neq _ 0)) by lia;
  repeat first [ rewrite reg_read_write_same by lia
               | rewrite reg_read_write_other by lia ];
  rewrite ?wrap_usize by assumption;
  reflexivity.

(** Claim C1: in each of the six translation-cache families (sfence.vma,
    sinval.vma, hfence.vvma, hfence.gvma, hinval.vvma, hinval.gvma), every
    scope variant emits one word of the family's form whose rs1 (address)
    and rs2 (ASID/VMID) fields are the hardwired-zero register exactly where
    the variant elides the operand, and otherwise a general register bound
    to the supplied value; the all/all variants have both fields zero. *)
Theorem scope_variants_zero_elided (f : family) (a i : option Z) (alloc : list Z) (rf : Z -> Z) :
  valid_alloc (variant f a i) alloc -> opt_usize a -> opt_usize i ->
  exists w,
    emitted (variant f a i) alloc = Some [w] /\
    d_opcode (decode w) = 0x73 /\ d_funct3 (decode w) = 0 /\
    d_funct7 (decode w) = family_funct7 f /\ d_rd (decode w) = 0 /\
    view (bound_regs (variant f a i) alloc rf) (d_rs1 (decode w)) = expected a /\
    view (bound_regs (variant f a i) alloc rf) (d_rs2 (decode w)) = expected i.
Proof.
  intros Hal Ha Hi.
  unfold valid_alloc in Hal.
  destruct f, a as [x|], i as [y|]; cbn -[alloc_ok] in Hal, Ha, Hi;
    alloc_cases Hal;
    unfold emitted; cbn -[enc_r enc_i decode];
    eexists; (split; [reflexivity|]);
    rewrite decode_enc_r by lia; cbn [d_opcode d_funct3 d_funct7 d_rd d_rs1 d_rs2];
    (split; [reflexivity|]); (split; [reflexivity|]); (split; [reflexivity|]);
    (split; [reflexivity|]); split; read_regs.
Qed.

(** Running a single-word fence intrinsic up to its fence event. *)
Ltac run_fence :=
  unfold call; cbn -[enc_r enc_i decode exec_all];
  unfold exec_all, exec, step; rewrite decode_enc_r by lia;
  cbn -[reg_read reg_write];
  eexists; split; [reflexivity|];
  cbn [fences push_fence retire set_regs regs];
  unfold scope, xr; cbn [regs retire set_regs];
  repeat rewrite (proj2 (Z.eqb_neq _ 0)) by lia;
  repeat first [ rewrite reg_read_write_same by lia
               | rewrite reg_read_write_other by lia ];
  rewrite ?wrap_usize by first [assumption | unfold usize; cbn; lia];
  reflexivity.

(** Claim C3: [hfence_gvma_gaddr gaddr] emits one HFENCE.GVMA word whose
    VMID field (rs2) is the hardwired-zero register and whose address field
    (rs1) is a register holding [gaddr] exactly as supplied; executing it
    performs a G-stage fence whose address operand is [gaddr] (no shift is
    applied) and whose VMID scope is "all". *)
Theorem hfence_gvma_gaddr_unshifted (gaddr : Z) (alloc : list Z) (rf : Z -> Z) (st : state) :
  valid_alloc (hfence_gvma_gaddr gaddr) alloc -> usize gaddr ->
  exists w,
    emitted (hfence_gvma_gaddr gaddr) alloc = Some [w] /\
    d_funct7 (decode w) = 0x31 /\
    d_rs2 (decode w) = 0 /\
    view (bound_regs (hfence_gvma_gaddr gaddr) alloc rf) (d_rs1 (decode w)) = Bound gaddr /\
    exists st', call (hfence_gvma_gaddr gaddr) alloc st = Ok (tt, st') /\
      fences st' = fences st ++ [Fence HFENCE_GVMA (Some gaddr) None].
Proof.
  intros Hal Hg. unfold valid_alloc in Hal; cbn -[alloc_ok] in Hal. alloc_cases Hal.
  unfold emitted; cbn -[enc_r enc_i decode].
  eexists; split; [reflexivity|].
  rewrite decode_enc_r by lia; cbn [d_funct7 d_rs1 d_rs2].
  split; [reflexivity|]. split; [reflexivity|]. split; [read_regs|].
  run_fence.
Qed.

(** Claim C7: [sfence_vma vaddr 0] and [sfence_vma_vaddr vaddr] are distinct
    instruction forms: the first binds the value 0 into a general register
    in the ASID field and fences ASID 0 only, the second puts the
    hardwired-zero register there and fences all address spaces; the two
    emitted words differ. *)
Theorem sfence_vma_asid0_not_all (vaddr : Z) (alloc1 alloc2 : list Z) (rf : Z -> Z) :
  valid_alloc (sfence_vma vaddr 0) alloc1 ->
  valid_alloc (sfence_vma_vaddr vaddr) alloc2 -> usize vaddr ->
  exists w1 w2,
    emitted (sfence_vma vaddr 0) alloc1 = Some [w1] /\
    emitted (sfence_vma_vaddr vaddr) alloc2 = Some [w2] /\
    view (bound_regs (sfence_vma vaddr 0) alloc1 rf) (d_rs2 (decode w1)) = Bound 0 /\
    view (bound_regs (sfence_vma_vaddr vaddr) alloc2 rf) (d_rs2 (decode w2)) = Zero_reg /\
    w1 <> w2 /\
    forall st, exists st1 st2,
      call (sfence_vma vaddr 0) alloc1 st = Ok (tt, st1) /\
      call (sfence_vma_vaddr vaddr) alloc2 st = Ok (tt, st2) /\
      fences st1 = fences st ++ [Fence SFENCE_VMA (Some vaddr) (Some 0)] /\
      fences st2 = fences st ++ [Fence SFENCE_VMA (Some vaddr) None].
Proof.
  intros Hal1 Hal2 Hv.
  unfold valid_alloc in Hal1, Hal2; cbn -[alloc_ok] in Hal1, Hal2.
  alloc_cases Hal1. alloc_cases Hal2.
  unfold emitted; cbn -[enc_r enc_i decode].
  do 2 eexists. split; [reflexivity|]. split; [reflexivity|].
  rewrite !decode_enc_r by lia; cbn [d_rs1 d_rs2].
  split; [read_regs|]. split; [read_regs|]. split.
  - intros E. apply (f_equal (fun w => d_rs2 (decode w))) in E.
    rewrite !decode_enc_r in E by lia. cbn in E. lia.
  - intros st. exists (push_fence (retire (set_regs st (reg_write (reg_write (regs st) r1 vaddr) r2 0))
                                    (enc_r 0x73 0 0x09 0 r1 r2))
                         (Fence SFENCE_VMA (Some vaddr) (Some 0))).
    exists (push_fence (retire (set_regs st (reg_write (regs st) r vaddr)) (enc_r 0x73 0 0x09 0 r 0))
                       (Fence SFENCE_VMA (Some vaddr) None)).
    split; [|split; [|split; reflexivity]].
    + unfold call; cbn -[enc_r enc_i decode exec_all].
      unfold exec_all, exec, step; rewrite decode_enc_r by lia.
      cbn -[reg_read reg_write].
      unfold scope, xr; cbn [regs retire set_regs].
      repeat rewrite (proj2 (Z.eqb_neq _ 0)) by lia.
      repeat first [ rewrite reg_read_write_same by lia
                   | rewrite reg_read_write_other by lia ].
      rewrite wrap_usize by exact Hv. reflexivity.
    + unfold call; cbn -[enc_r enc_i decode exec_all].
      unfold exec_all, exec, step; rewrite decode_enc_r by lia.
      cbn -[reg_read reg_write].
      unfold scope, xr; cbn [regs retire set_regs].
      repeat rewrite (proj2 (Z.eqb_neq _ 0)) by lia.
      repeat first [ rewrite reg_read_write_same by lia
                   | rewrite reg_read_write_other by lia ].
      rewrite wrap_usize by exact Hv. reflexivity.
Qed.

Lemma decode_enc_i_small (opc f3 rd rs1 imm : Z) :
  0 <= opc < 128 -> 0 <= f3 < 8 -> 0 <= rd < 32 -> 0 <= rs1 < 32 -> 0 <= imm < 4096 ->
  decode (enc_i opc f3 rd rs1 imm) = Dec opc rd f3 rs1 (imm mod 32) (imm / 32) imm.
Proof.
  intros. rewrite decode_enc_i by lia. cbv zeta.
  replace (Z.land imm (Z.ones 12)) with imm; [reflexivity|].
  rewrite Z.land_ones by lia. symmetry. apply Z.mod_small. cbn. lia.
Qed.

Lemma zext_wrap (w x : Z) : 0 <= w <= XLEN -> 0 <= x < 2 ^ w -> zext w (wrap x) = x.
Proof.
  intros Hw Hx. unfold zext, wrap.
  assert (2 ^ w <= 2 ^ XLEN) by (apply Z.pow_le_mono_r; lia).
  rewrite (Z.mod_small x (2 ^ XLEN)) by lia.
  apply Z.mod_small; exact Hx.
Qed.

Lemma land_255_bound (x : Z) : 0 <= Z.land x 255 < 256.
Proof.
  change 255 with (Z.ones 8). rewrite Z.land_ones by lia.
  apply Z.mod_pos_bound. lia.
Qed.

Lemma u32_usize (v : Z) : u32 v -> usize v.
Proof. unfold u32, usize, XLEN. intros. assert (2 ^ 32 <= 2 ^ 64) by (cbn; lia). lia. Qed.

Lemma land_ones_bound (x n : Z) : 0 <= n -> 0 <= Z.land x (Z.ones n) < 2 ^ n.
Proof. intros. rewrite Z.land_ones by lia. apply Z.mod_pos_bound. apply Z.pow_pos_nonneg; lia. Qed.

(** ** The float CSR intrinsics, one call each *)

Ltac land_bound :=
  match goal with
  | |- 0 <= Z.land ?x 255 < _ => change 255 with (Z.ones 8); pose proof (land_ones_bound x 8)
  | |- 0 <= Z.land ?x 31 < _ => change 31 with (Z.ones 5); pose proof (land_ones_bound x 5)
  | |- 0 <= Z.land ?x 7 < _ => change 7 with (Z.ones 3); pose proof (land_ones_bound x 3)
  end; unfold XLEN in *; cbn in *; lia.

Ltac run_csr :=
  unfold call; cbn -[enc_r enc_i decode exec_all];
  unfold exec_all, exec, step; rewrite decode_enc_i_small by lia;
  cbn -[reg_read reg_write];
  rewrite reg_read_write_same by lia; unfold as_u32;
  rewrite zext_wrap by first [unfold XLEN; lia | land_bound];
  eexists; split; [reflexivity|];
  cbn [fcsr xw set_fcsr set_regs retire]; unfold xr; cbn [regs retire set_regs];
  rewrite ?reg_read_write_same, ?wrap_usize by first [lia | apply u32_usize; assumption];
  reflexivity.

Lemma call_frcsr (alloc : list Z) (st : state) :
  valid_alloc frcsr alloc ->
  exists st1, call frcsr alloc st = Ok (Z.land (fcsr st) 255, st1) /\ fcsr st1 = fcsr st.
Proof. intros Hal. unfold valid_alloc in Hal; cbn -[alloc_ok] in Hal. alloc_cases Hal. run_csr. Qed.

Lemma call_fscsr (v : Z) (alloc : list Z) (st : state) :
  valid_alloc (fscsr v) alloc -> u32 v ->
  exists st1, call (fscsr v) alloc st = Ok (Z.land (fcsr st) 255, st1) /\
              fcsr st1 = Z.land v 255.
Proof. intros Hal Hv. unfold valid_alloc in Hal; cbn -[alloc_ok] in Hal. alloc_cases Hal. run_csr. Qed.

Lemma call_frrm (alloc : list Z) (st : state) :
  valid_alloc frrm alloc ->
  exists st1, call frrm alloc st = Ok (Z.land (Z.shiftr (fcsr st) 5) 7, st1) /\ fcsr st1 = fcsr st.
Proof. intros Hal. unfold valid_alloc in Hal; cbn -[alloc_ok] in Hal. alloc_cases Hal. run_csr. Qed.

Lemma call_fsrm (v : Z) (alloc : list Z) (st : state) :
  valid_alloc (fsrm v) alloc -> u32 v ->
  exists st1, call (fsrm v) alloc st = Ok (Z.land (Z.shiftr (fcsr st) 5) 7, st1) /\
              fcsr st1 = Z.lor (Z.land (fcsr st) 0x1F) (Z.shiftl (Z.land v 7) 5).
Proof. intros Hal Hv. unfold valid_alloc in Hal; cbn -[alloc_ok] in Hal. alloc_cases Hal. run_csr. Qed.

Lemma call_frflags (alloc : list Z) (st : state) :
  valid_alloc frflags alloc ->
  exists st1, call frflags alloc st = Ok (Z.land (fcsr st) 31, st1) /\ fcsr st1 = fcsr st.
Proof. intros Hal. unfold valid_alloc in Hal; cbn -[alloc_ok] in Hal. alloc_cases Hal. run_csr. Qed.

Lemma call_fsflags (v : Z) (alloc : list Z) (st : state) :
  valid_alloc (fsflags v) alloc -> u32 v ->
  exists st1, call (fsflags v) alloc st = Ok (Z.land (fcsr st) 31, st1) /\
              fcsr st1 = Z.lor (Z.land (fcsr st) 0xE0) (Z.land v 31).
Proof. intros Hal Hv. unfold valid_alloc in Hal; cbn -[alloc_ok] in Hal. alloc_cases Hal. run_csr. Qed.

Lemma flags_after_frm_write (f v : Z) :
  Z.land (Z.lor (Z.land f 0x1F) (Z.shiftl (Z.land v 7) 5)) 31 = Z.land f 31.
Proof.
  rewrite Z.land_lor_distr_l, <- Z.land_assoc.
  change (Z.land 0x1F 31) with 31.
  replace (Z.land (Z.shiftl (Z.land v 7) 5) 31) with 0; [apply Z.lor_0_r|].
  change 31 with (Z.ones 5). rewrite Z.land_ones, Z.shiftl_mul_pow2 by lia.
  symmetry. apply Z_mod_mult.
Qed.

Lemma frm_after_flags_write (f v : Z) :
  Z.land (Z.shiftr (Z.lor (Z.land f 0xE0) (Z.land v 31)) 5) 7 = Z.land (Z.shiftr f 5) 7.
Proof.
  rewrite Z.shiftr_lor, !Z.shiftr_land.
  change (Z.shiftr 0xE0 5) with 7. change (Z.shiftr 31 5) with 0.
  rewrite Z.land_0_r, Z.lor_0_r, <- Z.land_assoc. reflexivity.
Qed.

(** Claim C2: for every 32-bit value [v] and every [fcsr], [fscsr v]
    returns the value [fcsr] held before the call (what [frcsr] would have
    returned) and installs [v]; a following [frcsr] returns [v] masked to
    the 8 defined bits of [fcsr] ([fflags] and [frm]). *)
Theorem fscsr_swap_then_frcsr (v : Z) (a0 a1 a2 : list Z) (st : state) :
  valid_alloc frcsr a0 -> valid_alloc (fscsr v) a1 -> valid_alloc frcsr a2 -> u32 v ->
  exists old st0 st1 st2,
    call frcsr a0 st = Ok (old, st0) /\
    call (fscsr v) a1 st = Ok (old, st1) /\
    call frcsr a2 st1 = Ok (Z.land v 0xFF, st2).
Proof.
  intros H0 H1 H2 Hv.
  destruct (call_frcsr a0 st H0) as (st0 & E0 & _).
  destruct (call_fscsr v a1 st H1 Hv) as (st1 & E1 & F1).
  destruct (call_frcsr a2 st1 H2) as (st2 & E2 & _).
  exists (Z.land (fcsr st) 255), st0, st1, st2.
  split; [exact E0|]. split; [exact E1|].
  rewrite E2, F1, <- Z.land_assoc. reflexivity.
Qed.

(** Claim C4: [fsrm v] changes only the rounding-mode field, so a following
    [frflags] returns what [frflags] returned before; [fsflags v] changes
    only the exception-flags field, so a following [frrm] returns what
    [frrm] returned before. *)
Theorem fsrm_fsflags_frame (v : Z) (a0 a1 a2 : list Z) (st : state) :
  u32 v ->
  (valid_alloc frflags a0 -> valid_alloc (fsrm v) a1 -> valid_alloc frflags a2 ->
   exists flags st0 st1 st2 r,
     call frflags a0 st = Ok (flags, st0) /\
     call (fsrm v) a1 st = Ok (r, st1) /\
     call frflags a2 st1 = Ok (flags, st2)) /\
  (valid_alloc frrm a0 -> valid_alloc (fsflags v) a1 -> valid_alloc frrm a2 ->
   exists rm st0 st1 st2 r,
     call frrm a0 st = Ok (rm, st0) /\
     call (fsflags v) a1 st = Ok (r, st1) /\
     call frrm a2 st1 = Ok (rm, st2)).
Proof.
  intros Hv. split.
  - intros H0 H1 H2.
    destruct (call_frflags a0 st H0) as (st0 & E0 & _).
    destruct (call_fsrm v a1 st H1 Hv) as (st1 & E1 & F1).
    destruct (call_frflags a2 st1 H2) as (st2 & E2 & _).
    eexists _, st0, st1, st2, _. split; [exact E0|]. split; [exact E1|].
    rewrite E2, F1, flags_after_frm_write. reflexivity.
  - intros H0 H1 H2.
    destruct (call_frrm a0 st H0) as (st0 & E0 & _).
    destruct (call_fsflags v a1 st H1 Hv) as (st1 & E1 & F1).
    destruct (call_frrm a2 st1 H2) as (st2 & E2 & _).
    eexists _, st0, st1, st2, _. split; [exact E0|]. split; [exact E1|].
    rewrite E2, F1, frm_after_flags_write. reflexivity.
Qed.

(** ** The hypervisor loads and stores, one call each *)

Ltac compute_divmod :=
  repeat match goal with
  | |- context [Z.div (Zpos ?x) (Zpos ?y)] =>
      let v := eval vm_compute in (Z.div (Zpos x) (Zpos y)) in
      change (Z.div (Zpos x) (Zpos y)) with v
  | |- context [Z.modulo (Zpos ?x) (Zpos ?y)] =>
      let v := eval vm_compute in (Z.modulo (Zpos x) (Zpos y)) in
      change (Z.modulo (Zpos x) (Zpos y)) with v
  end.

Definition load_signed (l : guest_load_fn) : bool :=
  match l with HLV_B | HLV_H | HLV_W => true | _ => false end.

Definition load_conv (l : guest_load_fn) : Z -> Z :=
  match l with
  | HLV_B => as_i8 | HLV_BU => as_u8 | HLV_H => as_i16
  | HLV_HU | HLVX_HU => as_u16 | HLV_W => as_i32 | HLVX_WU => as_u32
  end.

Lemma call_guest_load (l : guest_load_fn) (a : Z) (alloc : list Z) (st : state) :
  valid_alloc (load_fn l a) alloc -> usize a ->
  match load_bytes (gmem st) a (load_width l) with
  | Some v =>
      exists st',
        call (load_fn l a) alloc st =
          Ok (load_conv l (wrap (if load_signed l then sext (8 * Z.of_nat (load_width l)) v else v)), st')
        /\ gmem st' = gmem st
  | None => call (load_fn l a) alloc st = Trap (Guest_page_fault a)
  end.
Proof.
  intros Hal Ha.
  destruct l; unfold valid_alloc in Hal; cbn -[alloc_ok] in Hal; alloc_cases Hal;
    unfold call; cbn -[enc_r enc_i decode exec_all load_bytes];
    unfold exec_all, exec, step; rewrite decode_enc_i_small by lia;
    compute_divmod;
    cbn -[reg_read reg_write load_bytes]; unfold xr; cbn [regs retire set_regs];
    rewrite reg_read_write_same, wrap_usize by first [lia | assumption];
    (destruct (load_bytes (gmem st) a _); [|reflexivity]);
    eexists; (split;
    [ unfold xw; cbn [regs set_regs retire];
      rewrite reg_read_write_same by lia; reflexivity
    | reflexivity ]).
Qed.

Lemma call_hsv_w (dst src : Z) (alloc : list Z) (st : state) :
  valid_alloc (hsv_w dst src) alloc -> usize dst ->
  call (hsv_w dst src) alloc st =
    match store_bytes (gmem st) dst (wrap src) 4 with
    | Some m =>
        Ok (tt, set_gmem (retire (set_regs st (bound_regs (hsv_w dst src) alloc (regs st)))
                                 (enc_r 0x73 4 0x35 0 (nth 0 alloc 0) (nth 1 alloc 0))) m)
    | None => Trap (Guest_page_fault dst)
    end.
Proof.
  intros Hal Ha. unfold valid_alloc in Hal; cbn -[alloc_ok] in Hal; alloc_cases Hal.
  unfold call; cbn -[enc_r enc_i decode exec_all store_bytes].
  unfold exec_all, exec, step; rewrite decode_enc_r by lia.
  compute_divmod.
  cbn -[reg_read reg_write store_bytes]; unfold xr; cbn [regs retire set_regs].
  rewrite reg_read_write_same by lia.
  rewrite reg_read_write_other, reg_read_write_same, wrap_usize by first [lia | assumption].
  destruct (store_bytes (gmem st) dst (wrap src) 4); reflexivity.
Qed.

(** ** Guest memory lemmas *)

Lemma wrap_wrap_add (x y : Z) : wrap (wrap x + y) = wrap (x + y).
Proof. unfold wrap. apply Zplus_mod_idemp_l. Qed.

Lemma wrap_bound (x : Z) : usize (wrap x).
Proof. unfold usize, wrap. apply Z.mod_pos_bound. unfold XLEN. lia. Qed.

Lemma wrap_add_ne (a j : Z) : usize a -> 0 <= j < 2 ^ XLEN - 1 -> a <> wrap (a + 1 + j).
Proof.
  unfold usize, wrap. intros Ha Hj E.
  destruct (Z.lt_ge_cases (a + 1 + j) (2 ^ XLEN)) as [Hlt | Hge].
  - rewrite Z.mod_small in E by lia. lia.
  - replace (a + 1 + j) with ((a + 1 + j - 2 ^ XLEN) + 1 * 2 ^ XLEN) in E by ring.
    rewrite Z_mod_plus_full, Z.mod_small in E by lia. lia.
Qed.

Lemma store_bytes_lookup_other (m m' : gmap Z Z) (a v b : Z) (n : nat) :
  usize a -> store_bytes m a v n = Some m' ->
  (forall k, (k < n)%nat -> b <> wrap (a + Z.of_nat k)) ->
  m' !! b = m !! b.
Proof.
  revert m a v. induction n as [|n IH]; intros m a v Ha Hs Hb; cbn in Hs.
  - congruence.
  - destruct (m !! a) eqn:Ea; [|discriminate].
    rewrite (IH _ _ _ (wrap_bound (a + 1)) Hs).
    + rewrite lookup_insert_ne; [reflexivity|].
      intros ->. apply (Hb 0%nat); [lia|].
      rewrite Z.add_0_r. symmetry. apply wrap_usize. exact Ha.
    + intros k Hk. rewrite wrap_wrap_add.
      replace (a + 1 + Z.of_nat k) with (a + Z.of_nat (S k)) by lia.
      apply Hb. lia.
Qed.

Lemma store_then_load (m m' : gmap Z Z) (a v : Z) (n : nat) :
  usize a -> (n <= 8)%nat -> store_bytes m a v n = Some m' ->
  load_bytes m' a n = Some (v mod 2 ^ (8 * Z.of_nat n)).
Proof.
  revert m a v. induction n as [|n IH]; intros m a v Ha Hn Hs; cbn [store_bytes] in Hs.
  - cbn. f_equal. symmetry. apply Z.mod_1_r.
  - destruct (m !! a) eqn:Ea; [|discriminate].
    cbn [load_bytes].
    rewrite (store_bytes_lookup_other _ _ _ _ a _ (wrap_bound (a + 1)) Hs).
    + rewrite lookup_insert_eq.
      rewrite (IH _ _ _ (wrap_bound (a + 1)) ltac:(lia) Hs).
      f_equal.
      rewrite <- Z.land_assoc. change (Z.land 255 255) with (Z.ones 8).
      rewrite Z.land_ones by lia.
      rewrite Z.shiftr_div_pow2 by lia.
      replace (8 * Z.of_nat (S n)) with (8 + 8 * Z.of_nat n) by lia.
      rewrite Z.pow_add_r by lia.
      rewrite Z.rem_mul_r by (try apply Z.pow_pos_nonneg; lia).
      reflexivity.
    + intros k Hk. rewrite wrap_wrap_add.
      apply wrap_add_ne; [exact Ha|]. unfold XLEN. lia.
Qed.

Lemma store_bytes_mapped (m : gmap Z Z) (a v : Z) (n : nat) :
  usize a -> mapped m a n -> exists m', store_bytes m a v n = Some m'.
Proof.
  revert m a v. induction n as [|n IH]; intros m a v Ha Hm.
  - exists m. reflexivity.
  - cbn [store_bytes].
    destruct (Hm 0%nat ltac:(lia)) as [x Ex].
    rewrite Z.add_0_r, wrap_usize in Ex by exact Ha.
    rewrite Ex. apply IH; [apply wrap_bound|].
    intros k Hk. rewrite wrap_wrap_add.
    destruct (decide (a = wrap (a + 1 + Z.of_nat k))) as [Eq|Ne].
    + rewrite <- Eq, lookup_insert_eq. eexists; reflexivity.
    + rewrite lookup_insert_ne by exact Ne.
      replace (a + 1 + Z.of_nat k) with (a + Z.of_nat (S k)) by lia.
      apply Hm. lia.
Qed.

(** Claim C5: on a guest byte holding 0xFF, [hlv_b] returns -1 (sign
    extension) and [hlv_bu] returns 255 (zero extension). *)
Theorem hlv_b_sext_hlv_bu_zext (a : Z) (alloc1 alloc2 : list Z) (st : state) :
  valid_alloc (hlv_b a) alloc1 -> valid_alloc (hlv_bu a) alloc2 -> usize a ->
  gmem st !! a = Some 0xFF ->
  (exists st1, call (hlv_b a) alloc1 st = Ok (-1, st1)) /\
  (exists st2, call (hlv_bu a) alloc2 st = Ok (255, st2)).
Proof.
  intros H1 H2 Ha Hm.
  assert (Hl : load_bytes (gmem st) a 1 = Some 255) by (cbn; rewrite Hm; reflexivity).
  pose proof (call_guest_load HLV_B a alloc1 st H1 Ha) as L1.
  pose proof (call_guest_load HLV_BU a alloc2 st H2 Ha) as L2.
  cbn [load_width load_fn] in L1, L2. rewrite Hl in L1, L2.
  destruct L1 as (st1 & E1 & _). destruct L2 as (st2 & E2 & _).
  split; [exists st1 | exists st2]; [rewrite E1 | rewrite E2]; reflexivity.
Qed.

(** Claim C6: for every guest address whose four bytes are mapped, storing
    the word -123 with [hsv_w] and loading it back with [hlv_w] from the
    same address yields -123. *)
Theorem hsv_w_hlv_w_roundtrip (a : Z) (alloc1 alloc2 : list Z) (st : state) :
  valid_alloc (hsv_w a (-123)) alloc1 -> valid_alloc (hlv_w a) alloc2 -> usize a ->
  mapped (gmem st) a 4 ->
  exists st1 st2,
    call (hsv_w a (-123)) alloc1 st = Ok (tt, st1) /\
    call (hlv_w a) alloc2 st1 = Ok (-123, st2).
Proof.
  intros H1 H2 Ha Hm.
  destruct (store_bytes_mapped (gmem st) a (wrap (-123)) 4 Ha Hm) as [m' Em].
  rewrite (call_hsv_w a (-123) alloc1 st H1 Ha), Em.
  set (st1 := set_gmem (retire (set_regs st (bound_regs (hsv_w a (-123)) alloc1 (regs st)))
                               (enc_r 0x73 4 0x35 0 (nth 0 alloc1 0) (nth 1 alloc1 0))) m').
  pose proof (call_guest_load HLV_W a alloc2 st1 H2 Ha) as L.
  cbn [load_width load_fn] in L.
  replace (gmem st1) with m' in L by reflexivity.
  rewrite (store_then_load _ _ _ _ 4 Ha ltac:(lia) Em) in L.
  destruct L as (st2 & E & _).
  exists st1, st2. split; [reflexivity|].
  rewrite E. reflexivity.
Qed.

(** Claim C10: each of the seven guest loads is issued with the [readonly]
    option and, for every address, leaves guest memory unchanged: it either
    traps or returns a value with memory as before; when the bytes it reads
    are mapped it returns a value. *)
Theorem guest_loads_readonly (l : guest_load_fn) (a : Z) (alloc : list Z) (st : state) :
  valid_alloc (load_fn l a) alloc -> usize a ->
  In Readonly (opts (body (load_fn l a))) /\
  (forall v st', call (load_fn l a) alloc st = Ok (v, st') -> gmem st' = gmem st) /\
  (mapped (gmem st) a (load_width l) ->
   exists v st', call (load_fn l a) alloc st = Ok (v, st')).
Proof.
  intros Hal Ha.
  pose proof (call_guest_load l a alloc st Hal Ha) as L.
  split; [destruct l; cbn; auto|].
  destruct (load_bytes (gmem st) a (load_width l)) as [x|] eqn:Eb.
  - destruct L as (st1 & E & G). split.
    + intros v st' E'. rewrite E in E'. injection E' as _ <-. exact G.
    + intros _. eexists _, st1. exact E.
  - split.
    + intros v st' E'. rewrite L in E'. discriminate.
    + intros Hm. exfalso.
      assert (Hload : forall (m : gmap Z Z) b n, usize b -> mapped m b n -> exists y, load_bytes m b n = Some y).
      { clear. intros m b n. revert b. induction n as [|n IH]; intros b Hb Hmb.
        - eexists; reflexivity.
        - cbn [load_bytes].
          destruct (Hmb 0%nat ltac:(lia)) as [y Ey].
          rewrite Z.add_0_r, wrap_usize in Ey by exact Hb. rewrite Ey.
          destruct (IH (wrap (b + 1)) (wrap_bound _)) as [z Ez].
          + intros k Hk. rewrite wrap_wrap_add.
            replace (b + 1 + Z.of_nat k) with (b + Z.of_nat (S k)) by lia.
            apply Hmb. lia.
          + rewrite Ez. eexists; reflexivity. }
      destruct (Hload _ _ _ Ha Hm) as [y Ey]. congruence.
Qed.

(** Claim C8: [pause], [nop] and the six float CSR functions are safe
    functions (and declare [nomem]); [wfi], [fence_i], every supervisor and
    hypervisor fence or invalidation (all scope variants of the six
    families, [sfence_w_inval], [sfence_inval_ir]) and the nine guest-memory
    accesses are [unsafe]. *)
Theorem safety_markers :
  (Forall (fun f : intrinsic unit => is_unsafe f = false /\ In Nomem (opts (body f))) [pause; nop] /\
   Forall (fun f : intrinsic Z => is_unsafe f = false /\ In Nomem (opts (body f))) [frcsr; frrm; frflags] /\
   forall v, Forall (fun f : intrinsic Z => is_unsafe f = false /\ In Nomem (opts (body f)))
                    [fscsr v; fsrm v; fsflags v]) /\
  (Forall (fun f : intrinsic unit => is_unsafe f = true) [wfi; fence_i; sfence_w_inval; sfence_inval_ir] /\
   (forall f a i, is_unsafe (variant f a i) = true) /\
   (forall l a, is_unsafe (load_fn l a) = true) /\
   forall dst src, Forall (fun f : intrinsic unit => is_unsafe f = true)
                          [hsv_b dst src; hsv_h dst src; hsv_w dst src]).
Proof.
  split; [split; [|split]|split; [|split; [|split]]].
  - repeat constructor.
  - repeat constructor.
  - intros v. repeat constructor.
  - repeat constructor.
  - intros f a i. destruct f, a, i; reflexivity.
  - intros l a. destruct l; reflexivity.
  - intros dst src. repeat constructor.
Qed.

Lemma call_pause (st : state) : call pause [] st = Ok (tt, retire st 0x0100000F).
Proof. reflexivity. Qed.

Lemma call_nop (st : state) : call nop [] st = Ok (tt, retire st 0x13).
Proof. reflexivity. Qed.

Lemma call_wfi (st : state) : call wfi [] st = Ok (tt, retire st 0x10500073).
Proof. reflexivity. Qed.

(** Claim C9: [pause], [nop] and [wfi] take no operand, declare [nomem],
    emit exactly one instruction word, and running each leaves guest memory
    as it was (the only change is the retired word). *)
Theorem hints_one_insn_no_memory :
  Forall (fun f : intrinsic unit =>
            opnds (body f) = [] /\ In Nomem (opts (body f)) /\
            exists w, emitted f [] = Some [w] /\
              forall st, exists st',
                call f [] st = Ok (tt, st') /\ gmem st' = gmem st /\
                retired st' = retired st ++ [w])
         [pause; nop; wfi].
Proof.
  repeat constructor.
  - exists 0x0100000F. split; [reflexivity|].
    intros st. exists (retire st 0x0100000F). rewrite call_pause. auto.
  - exists 0x13. split; [reflexivity|].
    intros st. exists (retire st 0x13). rewrite call_nop. auto.
  - exists 0x10500073. split; [reflexivity|].
    intros st. exists (retire st 0x10500073). rewrite call_wfi. auto.
Qed.

(** ** Concrete instances *)

Lemma sample_hart_mapped : mapped (gmem sample_hart) 0x2000 4.
Proof.
  intros k Hk. destruct k as [|[|[|[|k]]]]; try lia; eexists; reflexivity.
Qed.

Lemma scope_variants_zero_elided_witness :
  exists w,
    emitted (variant Sinval_vma (Some 0x1000) None) [7] = Some [w] /\
    d_opcode (decode w) = 0x73 /\ d_funct3 (decode w) = 0 /\
    d_funct7 (decode w) = family_funct7 Sinval_vma /\ d_rd (decode w) = 0 /\
    view (bound_regs (variant Sinval_vma (Some 0x1000) None) [7] (fun _ => 0)) (d_rs1 (decode w))
      = expected (Some 0x1000) /\
    view (bound_regs (variant Sinval_vma (Some 0x1000) None) [7] (fun _ => 0)) (d_rs2 (decode w))
      = expected None.
Proof.
  apply (scope_variants_zero_elided Sinval_vma (Some 0x1000) None [7] (fun _ => 0)).
  - reflexivity.
  - cbn. unfold usize, XLEN. lia.
  - exact I.
Defined.

Lemma fscsr_swap_then_frcsr_witness :
  exists old st0 st1 st2,
    call frcsr [5] sample_hart = Ok (old, st0) /\
    call (fscsr 0x1234) [5; 6] sample_hart = Ok (old, st1) /\
    call frcsr [7] st1 = Ok (Z.land 0x1234 0xFF, st2).
Proof.
  apply (fscsr_swap_then_frcsr 0x1234 [5] [5; 6] [7] sample_hart);
    [reflexivity | reflexivity | reflexivity | unfold u32; lia].
Defined.

Lemma hfence_gvma_gaddr_unshifted_witness :
  exists w,
    emitted (hfence_gvma_gaddr 0x400) [9] = Some [w] /\
    d_funct7 (decode w) = 0x31 /\
    d_rs2 (decode w) = 0 /\
    view (bound_regs (hfence_gvma_gaddr 0x400) [9] (fun _ => 0)) (d_rs1 (decode w)) = Bound 0x400 /\
    exists st', call (hfence_gvma_gaddr 0x400) [9] sample_hart = Ok (tt, st') /\
      fences st' = fences sample_hart ++ [Fence HFENCE_GVMA (Some 0x400) None].
Proof.
  apply (hfence_gvma_gaddr_unshifted 0x400 [9] (fun _ => 0) sample_hart);
    [reflexivity | unfold usize, XLEN; lia].
Defined.

Lemma fsrm_fsflags_frame_witness :
  exists flags st0 st1 st2 r,
    call frflags [5] sample_hart = Ok (flags, st0) /\
    call (fsrm 5) [5; 6] sample_hart = Ok (r, st1) /\
    call frflags [7] st1 = Ok (flags, st2).
Proof.
  apply (proj1 (fsrm_fsflags_frame 5 [5] [5; 6] [7] sample_hart ltac:(unfold u32; lia)));
    reflexivity.
Defined.

Lemma hlv_b_sext_hlv_bu_zext_witness :
  (exists st1, call (hlv_b 0x2000) [5; 6] sample_hart = Ok (-1, st1)) /\
  (exists st2, call (hlv_bu 0x2000) [7; 8] sample_hart = Ok (255, st2)).
Proof.
  apply (hlv_b_sext_hlv_bu_zext 0x2000 [5; 6] [7; 8] sample_hart);
    [reflexivity | reflexivity | unfold usize, XLEN; lia | reflexivity].
Defined.

Lemma hsv_w_hlv_w_roundtrip_witness :
  exists st1 st2,
    call (hsv_w 0x2000 (-123)) [5; 6] sample_hart = Ok (tt, st1) /\
    call (hlv_w 0x2000) [7; 8] st1 = Ok (-123, st2).
Proof.
  apply (hsv_w_hlv_w_roundtrip 0x2000 [5; 6] [7; 8] sample_hart);
    [reflexivity | reflexivity | unfold usize, XLEN; lia | exact sample_hart_mapped].
Defined.

Lemma sfence_vma_asid0_not_all_witness :
  exists w1 w2,
    emitted (sfence_vma 0x1000 0) [5; 6] = Some [w1] /\
    emitted (sfence_vma_vaddr 0x1000) [7] = Some [w2] /\
    view (bound_regs (sfence_vma 0x1000 0) [5; 6] (fun _ => 0)) (d_rs2 (decode w1)) = Bound 0 /\
    view (bound_regs (sfence_vma_vaddr 0x1000) [7] (fun _ => 0)) (d_rs2 (decode w2)) = Zero_reg /\
    w1 <> w2 /\
    forall st, exists st1 st2,
      call (sfence_vma 0x1000 0) [5; 6] st = Ok (tt, st1) /\
      call (sfence_vma_vaddr 0x1000) [7] st = Ok (tt, st2) /\
      fences st1 = fences st ++ [Fence SFENCE_VMA (Some 0x1000) (Some 0)] /\
      fences st2 = fences st ++ [Fence SFENCE_VMA (Some 0x1000) None].
Proof.
  apply (sfence_vma_asid0_not_all 0x1000 [5; 6] [7] (fun _ => 0));
    [reflexivity | reflexivity | unfold usize, XLEN; lia].
Defined.

Lemma guest_loads_readonly_witness :
  In Readonly (opts (body (load_fn HLVX_WU 0x2000))) /\
  (forall v st', call (load_fn HLVX_WU 0x2000) [5; 6] sample_hart = Ok (v, st') ->
                 gmem st' = gmem sample_hart) /\
  (mapped (gmem sample_hart) 0x2000 (load_width HLVX_WU) ->
   exists v st', call (load_fn HLVX_WU 0x2000) [5; 6] sample_hart = Ok (v, st')).
Proof.
  apply (guest_loads_readonly HLVX_WU 0x2000 [5; 6] sample_hart);
    [reflexivity | unfold usize, XLEN; lia].
Defined.

(** ** Sign and zero extension *)

Lemma pow2_divide (k : Z) : 0 <= k <= XLEN -> (2 ^ k | 2 ^ XLEN).
Proof.
  intros Hk. replace XLEN with ((XLEN - k) + k) by lia.
  rewrite Z.pow_add_r by lia. apply Z.divide_factor_r.
Qed.

Lemma wrap_mod (k x : Z) : 0 <= k <= XLEN -> wrap x mod 2 ^ k = x mod 2 ^ k.
Proof. intros Hk. unfold wrap. apply Z.mod_mod_divide, pow2_divide, Hk. Qed.


Lemma sext_wrap (k x : Z) : 0 < k <= XLEN -> sext k (wrap x) = sext k x.
Proof. intros Hk. unfold sext. rewrite wrap_mod by lia. reflexivity. Qed.

Lemma sext_range (k x : Z) : 0 < k -> signed_fits k (sext k x).
Proof.
  intros Hk. unfold signed_fits, sext.
  assert (E : 2 ^ k = 2 * 2 ^ (k - 1)).
  { rewrite <- Z.pow_succ_r by lia. f_equal. lia. }
  pose proof (Z.mod_pos_bound x (2 ^ k) ltac:(lia)).
  destruct (Z.ltb_spec (x mod 2 ^ k) (2 ^ (k - 1))); lia.
Qed.

Lemma sext_small (k v : Z) : 0 < k -> signed_fits k v -> sext k v = v.
Proof.
  unfold signed_fits, sext. intros Hk Hv.
  assert (E : 2 ^ k = 2 * 2 ^ (k - 1)).
  { rewrite <- Z.pow_succ_r by lia. f_equal. lia. }
  destruct (Z.le_gt_cases 0 v) as [Hp | Hn].
  - rewrite Z.mod_small by lia. rewrite (proj2 (Z.ltb_lt _ _)) by lia. reflexivity.
  - assert (Hm : v mod 2 ^ k = v + 2 ^ k).
    { replace v with ((v + 2 ^ k) + (-1) * 2 ^ k) at 1 by ring.
      rewrite Z_mod_plus_full, Z.mod_small by lia. reflexivity. }
    rewrite Hm, (proj2 (Z.ltb_ge _ _)) by lia. lia.
Qed.




(** ** The hypervisor stores, one call each *)

Lemma call_guest_store (s : guest_store_fn) (dst src : Z) (alloc : list Z) (st : state) :
  valid_alloc (store_fn s dst src) alloc -> usize dst ->
  call (store_fn s dst src) alloc st =
    match store_bytes (gmem st) dst (wrap src) (store_width s) with
    | Some m =>
        Ok (tt, set_gmem (retire (set_regs st (bound_regs (store_fn s dst src) alloc (regs st)))
                                 (enc_r 0x73 4 (store_funct7 s) 0 (nth 0 alloc 0) (nth 1 alloc 0))) m)
    | None => Trap (Guest_page_fault dst)
    end.
Proof.
  intros Hal Ha.
  destruct s; unfold valid_alloc in Hal; cbn -[alloc_ok] in Hal; alloc_cases Hal;
    unfold call; cbn -[enc_r enc_i decode exec_all store_bytes];
    unfold exec_all, exec, step; rewrite decode_enc_r by lia;
    compute_divmod;
    cbn -[reg_read reg_write store_bytes]; unfold xr; cbn [regs retire set_regs];
    rewrite reg_read_write_same by lia;
    rewrite reg_read_write_other, reg_read_write_same, wrap_usize by first [lia | assumption];
    (destruct (store_bytes (gmem st) dst (wrap src) _); reflexivity).
Qed.

(** ** Guest memory: bounds, unmapped bytes *)

Lemma load_bytes_bound (m : gmap Z Z) (a x : Z) (n : nat) :
  load_bytes m a n = Some x -> 0 <= x < 2 ^ (8 * Z.of_nat n).
Proof.
  revert a x. induction n as [|n IH]; intros a x E; cbn [load_bytes] in E.
  - injection E as <-. cbn. lia.
  - destruct (m !! a) as [b|]; [|discriminate].
    destruct (load_bytes m (wrap (a + 1)) n) as [r|] eqn:Er; [|discriminate].
    injection E as <-. specialize (IH _ _ Er).
    pose proof (land_255_bound b).
    replace (8 * Z.of_nat (S n)) with (8 + 8 * Z.of_nat n) by lia.
    rewrite Z.pow_add_r by lia. change (2 ^ 8) with 256. lia.
Qed.



(** ** Running the fence and CSR intrinsics *)

Ltac run_fence_frame :=
  unfold call; cbn -[enc_r enc_i decode exec_all];
  unfold exec_all, exec, step;
  first [rewrite decode_enc_r by lia | rewrite decode_enc_i_small by lia];
  try compute_divmod;
  cbn -[reg_read reg_write];
  eexists; split; [reflexivity|];
  cbn [fences gmem fcsr push_fence retire set_regs regs];
  (split; [|split; reflexivity]);
  unfold scope, xr; cbn [regs retire set_regs];
  repeat rewrite (proj2 (Z.eqb_neq _ 0)) by lia;
  repeat first [ rewrite reg_read_write_same by lia
               | rewrite reg_read_write_other by lia ];
  rewrite ?wrap_usize by first [assumption | unfold usize; cbn; lia];
  reflexivity.

Ltac run_csr_frame :=
  unfold call; cbn -[enc_r enc_i decode exec_all];
  unfold exec_all, exec, step; rewrite decode_enc_i_small by lia;
  cbn -[reg_read reg_write];
  rewrite reg_read_write_same by lia; unfold as_u32;
  rewrite zext_wrap by first [unfold XLEN; lia | land_bound];
  eexists _, _; split; [reflexivity|];
  cbn [gmem fences xw set_fcsr set_regs retire]; split; [|split; reflexivity];
  first [land_bound | cbn; land_bound].

Lemma shiftr_frm_write (f v : Z) :
  Z.land (Z.shiftr (Z.lor (Z.land f 0x1F) (Z.shiftl (Z.land v 7) 5)) 5) 7 = Z.land v 7.
Proof.
  rewrite Z.shiftr_lor, Z.shiftr_land, Z.shiftr_shiftl_l by lia.
  change (Z.shiftr 0x1F 5) with 0. change (5 - 5) with 0.
  rewrite Z.land_0_r, Z.lor_0_l, Z.shiftl_0_r, <- Z.land_assoc. reflexivity.
Qed.

Lemma flags_write_read (f v : Z) :
  Z.land (Z.lor (Z.land f 0xE0) (Z.land v 31)) 31 = Z.land v 31.
Proof.
  rewrite Z.land_lor_distr_l, <- !Z.land_assoc.
  change (Z.land 0xE0 31) with 0. change (Z.land 31 31) with 31.
  rewrite Z.land_0_r, Z.lor_0_l. reflexivity.
Qed.

(** ** Further properties of the intrinsics *)

(** Every scope variant of the six translation-cache families runs as
    exactly one fence event of its family, whose address and ASID/VMID
    scopes are the supplied operands ([None] where the variant elides one);
    guest memory and [fcsr] are left unchanged. *)
Theorem variant_fence_event (f : family) (a i : option Z) (alloc : list Z) (st : state) :
  valid_alloc (variant f a i) alloc -> opt_usize a -> opt_usize i ->
  exists st',
    call (variant f a i) alloc st = Ok (tt, st') /\
    fences st' = fences st ++ [Fence (family_kind f) a i] /\
    gmem st' = gmem st /\ fcsr st' = fcsr st.
Proof.
  intros Hal Ha Hi. unfold valid_alloc in Hal.
  destruct f, a as [x|], i as [y|]; cbn -[alloc_ok] in Hal, Ha, Hi;
    alloc_cases Hal; run_fence_frame.
Qed.

(** [sfence_w_inval], then [sinval_vma vaddr asid], then [sfence_inval_ir]
    record, in this order, the write-ordering fence, the invalidation with
    both scopes, and the implicit-reference fence. *)
Theorem svinval_sequence (vaddr asid : Z) (alloc : list Z) (st : state) :
  valid_alloc (sinval_vma vaddr asid) alloc -> usize vaddr -> usize asid ->
  exists st1 st2 st3,
    call sfence_w_inval [] st = Ok (tt, st1) /\
    call (sinval_vma vaddr asid) alloc st1 = Ok (tt, st2) /\
    call sfence_inval_ir [] st2 = Ok (tt, st3) /\
    fences st3 = fences st ++ [Fence SFENCE_W_INVAL None None;
                               Fence SINVAL_VMA (Some vaddr) (Some asid);
                               Fence SFENCE_INVAL_IR None None] /\
    gmem st3 = gmem st.
Proof.
  intros Hal Hv Ha.
  assert (W : exists st1, call sfence_w_inval [] st = Ok (tt, st1) /\
            fences st1 = fences st ++ [Fence SFENCE_W_INVAL None None] /\
            gmem st1 = gmem st /\ fcsr st1 = fcsr st) by run_fence_frame.
  destruct W as (st1 & E1 & F1 & G1 & _).
  assert (S : exists st2, call (sinval_vma vaddr asid) alloc st1 = Ok (tt, st2) /\
            fences st2 = fences st1 ++ [Fence SINVAL_VMA (Some vaddr) (Some asid)] /\
            gmem st2 = gmem st1 /\ fcsr st2 = fcsr st1).
  { unfold valid_alloc in Hal; cbn -[alloc_ok] in Hal. alloc_cases Hal. run_fence_frame. }
  destruct S as (st2 & E2 & F2 & G2 & _).
  assert (R : exists st3, call sfence_inval_ir [] st2 = Ok (tt, st3) /\
            fences st3 = fences st2 ++ [Fence SFENCE_INVAL_IR None None] /\
            gmem st3 = gmem st2 /\ fcsr st3 = fcsr st2) by run_fence_frame.
  destruct R as (st3 & E3 & F3 & G3 & _).
  exists st1, st2, st3. split; [exact E1|]. split; [exact E2|]. split; [exact E3|].
  split.
  - rewrite F3, F2, F1, <- !app_assoc. reflexivity.
  - congruence.
Qed.




(** A hypervisor store that completes changes guest memory only at the
    bytes it writes; the set of mapped addresses, [fcsr] and the fence
    events are unchanged. *)
Theorem guest_store_frame (s : guest_store_fn) (a v : Z) (alloc : list Z) (st st' : state) :
  valid_alloc (store_fn s a v) alloc -> usize a ->
  call (store_fn s a v) alloc st = Ok (tt, st') ->
  (forall b, (forall k, (k < store_width s)%nat -> b <> wrap (a + Z.of_nat k)) ->
             gmem st' !! b = gmem st !! b) /\
  (forall b, is_Some (gmem st' !! b) <-> is_Some (gmem st !! b)) /\
  fcsr st' = fcsr st /\ fences st' = fences st.
Proof.
  intros Hal Ha E.
  rewrite (call_guest_store s a v alloc st Hal Ha) in E.
  destruct (store_bytes (gmem st) a (wrap v) (store_width s)) as [m|] eqn:Es; [|discriminate].
  injection E as <-. cbn [gmem fcsr fences set_gmem retire set_regs].
  split; [|split; [|split; reflexivity]].
  - intros b Hb. exact (store_bytes_lookup_other _ _ _ _ b _ Ha Es Hb).
  - assert (Hdom : forall (m0 m1 : gmap Z Z) a0 v0 n, store_bytes m0 a0 v0 n = Some m1 ->
                   forall b, is_Some (m1 !! b) <-> is_Some (m0 !! b)).
    { clear. intros m0 m1 a0 v0 n. revert m0 a0 v0.
      induction n as [|n IH]; intros m0 a0 v0 E b; cbn [store_bytes] in E.
      - injection E as <-. reflexivity.
      - destruct (m0 !! a0) eqn:E0; [|discriminate].
        rewrite (IH _ _ _ E b).
        destruct (decide (b = a0)) as [->|Hne].
        + rewrite lookup_insert_eq, E0. split; intros _; eexists; reflexivity.
        + rewrite lookup_insert_ne by congruence. reflexivity. }
    intros b. exact (Hdom _ _ _ _ _ Es b).
Qed.

(** At the same guest address, a signed load and an unsigned load of the
    same width that both complete agree: the unsigned result lies in
    [0, 2^k) for the [k] bits read, and the signed result is its
    sign-extension from [k] bits. *)
Theorem signed_unsigned_load_agree (ls lu : guest_load_fn) (a : Z) (alloc1 alloc2 : list Z)
    (st st1 st2 : state) (vs vu : Z) :
  load_signed ls = true -> load_signed lu = false -> load_width ls = load_width lu ->
  valid_alloc (load_fn ls a) alloc1 -> valid_alloc (load_fn lu a) alloc2 -> usize a ->
  call (load_fn ls a) alloc1 st = Ok (vs, st1) ->
  call (load_fn lu a) alloc2 st = Ok (vu, st2) ->
  0 <= vu < 2 ^ (8 * Z.of_nat (load_width lu)) /\
  vs = sext (8 * Z.of_nat (load_width lu)) vu.
Proof.
  intros Hs Hu Hw H1 H2 Ha E1 E2.
  pose proof (call_guest_load ls a alloc1 st H1 Ha) as L1.
  pose proof (call_guest_load lu a alloc2 st H2 Ha) as L2.
  rewrite Hw in L1. rewrite Hs in L1. rewrite Hu in L2.
  destruct (load_bytes (gmem st) a (load_width lu)) as [x|] eqn:Ex.
  2:{ rewrite L1 in E1. discriminate. }
  destruct L1 as (st1' & F1 & _). destruct L2 as (st2' & F2 & _).
  rewrite F1 in E1. rewrite F2 in E2.
  injection E1 as <- _. injection E2 as <- _.
  pose proof (load_bytes_bound _ _ _ _ Ex) as Hx.
  assert (Hk : 0 < 8 * Z.of_nat (load_width lu) <= XLEN) by (destruct lu; cbn; unfold XLEN; lia).
  destruct ls, lu; try discriminate; cbn in Hw; try discriminate;
    cbn [load_conv load_width] in *;
    unfold as_i8, as_u8, as_i16, as_u16, as_i32, as_u32;
    rewrite zext_wrap by (unfold XLEN; cbn in *; lia);
    (split; [exact Hx|]);
    rewrite sext_wrap by lia; (apply sext_small; [lia | apply sext_range; lia]).
Qed.

(** Each floating-point CSR intrinsic completes, returns a value that fits
    the field it reads (below [2^8] for [fcsr], [2^3] for [frm], [2^5] for
    [fflags]), and changes neither guest memory nor the fence events. *)
Theorem fp_csr_bounded_no_memory (c : fp_csr_fn) (alloc : list Z) (st : state) :
  valid_alloc (fp_csr c) alloc -> fp_csr_arg c ->
  exists r st',
    call (fp_csr c) alloc st = Ok (r, st') /\
    (0 <= r < 2 ^ fp_csr_bits c /\ gmem st' = gmem st /\ fences st' = fences st).
Proof.
  intros Hal Hv. unfold valid_alloc in Hal.
  destruct c; cbn -[alloc_ok] in Hal, Hv; cbn [fp_csr_bits]; alloc_cases Hal; run_csr_frame.
Qed.

Lemma low8_ext (x y : Z) :
  (forall n, 0 <= n < 8 -> Z.testbit x n = Z.testbit y n) -> Z.land x 255 = Z.land y 255.
Proof.
  intros H. apply Z.bits_inj'. intros n Hn. rewrite !Z.land_spec.
  destruct (Z.ltb_spec n 8).
  - rewrite H by lia. reflexivity.
  - change 255 with (Z.ones 8). rewrite Z.ones_spec_high by lia.
    rewrite !andb_false_r. reflexivity.
Qed.

Ltac low8_bits :=
  apply low8_ext; intros n Hn;
  assert (n = 0 \/ n = 1 \/ n = 2 \/ n = 3 \/ n = 4 \/ n = 5 \/ n = 6 \/ n = 7) as Hc by lia;
  repeat destruct Hc as [-> | Hc]; [..| subst n];
  repeat rewrite ?Z.lor_spec, ?Z.land_spec, ?Z.shiftl_spec, ?Z.shiftr_spec by lia;
  repeat match goal with
         | |- context [Z.testbit ?x (?a - ?b)] =>
             let c := eval cbv in (a - b) in change (a - b) with c
         | |- context [Z.testbit ?x (?a + ?b)] =>
             let c := eval cbv in (a + b) in change (a + b) with c
         end;
  cbn; btauto.

Lemma fsrm_restore_bits (f v : Z) :
  Z.land (Z.lor (Z.land (Z.lor (Z.land f 0x1F) (Z.shiftl (Z.land v 7) 5)) 0x1F)
                (Z.shiftl (Z.land (Z.land (Z.shiftr f 5) 7) 7) 5)) 255 = Z.land f 255.
Proof. low8_bits. Qed.

Lemma fsflags_restore_bits (f v : Z) :
  Z.land (Z.lor (Z.land (Z.lor (Z.land f 0xE0) (Z.land v 31)) 0xE0)
                (Z.land (Z.land f 31) 31)) 255 = Z.land f 255.
Proof. low8_bits. Qed.

(** [fsrm v] followed by [frrm] returns the low 3 bits of [v];
    [fsflags v] followed by [frflags] returns the low 5 bits of [v]. *)
Theorem fp_field_write_read (v : Z) (a1 a2 : list Z) (st : state) :
  u32 v ->
  (valid_alloc (fsrm v) a1 -> valid_alloc frrm a2 ->
   exists r st1 st2,
     call (fsrm v) a1 st = Ok (r, st1) /\ call frrm a2 st1 = Ok (Z.land v 7, st2)) /\
  (valid_alloc (fsflags v) a1 -> valid_alloc frflags a2 ->
   exists r st1 st2,
     call (fsflags v) a1 st = Ok (r, st1) /\ call frflags a2 st1 = Ok (Z.land v 31, st2)).
Proof.
  intros Hv. split; intros H1 H2.
  - destruct (call_fsrm v a1 st H1 Hv) as (st1 & E1 & F1).
    destruct (call_frrm a2 st1 H2) as (st2 & E2 & _).
    eexists _, st1, st2. split; [exact E1|].
    rewrite E2, F1, shiftr_frm_write. reflexivity.
  - destruct (call_fsflags v a1 st H1 Hv) as (st1 & E1 & F1).
    destruct (call_frflags a2 st1 H2) as (st2 & E2 & _).
    eexists _, st1, st2. split; [exact E1|].
    rewrite E2, F1, flags_write_read. reflexivity.
Qed.

(** After [fscsr v], [frrm] returns bits 5..7 of [v] and [frflags]
    returns bits 0..4 of [v]. *)
Theorem fscsr_then_fields (v : Z) (a1 a2 a3 : list Z) (st : state) :
  u32 v -> valid_alloc (fscsr v) a1 -> valid_alloc frrm a2 -> valid_alloc frflags a3 ->
  exists r st1 st2 st3,
    call (fscsr v) a1 st = Ok (r, st1) /\
    call frrm a2 st1 = Ok (Z.land (Z.shiftr v 5) 7, st2) /\
    call frflags a3 st1 = Ok (Z.land v 31, st3).
Proof.
  intros Hv H1 H2 H3.
  destruct (call_fscsr v a1 st H1 Hv) as (st1 & E1 & F1).
  destruct (call_frrm a2 st1 H2) as (st2 & E2 & _).
  destruct (call_frflags a3 st1 H3) as (st3 & E3 & _).
  eexists _, st1, st2, st3. split; [exact E1|]. split.
  - rewrite E2, F1, Z.shiftr_land, <- Z.land_assoc. reflexivity.
  - rewrite E3, F1, <- Z.land_assoc. reflexivity.
Qed.

(** Writing back the value [fscsr], [fsrm] or [fsflags] returned restores
    [fcsr]: afterwards [frcsr] returns what it returned before the first
    write. *)
Theorem fp_csr_save_restore (v : Z) (a0 a1 a2 a3 : list Z) (st : state) :
  u32 v -> valid_alloc frcsr a0 -> valid_alloc frcsr a3 ->
  (valid_alloc (fscsr v) a1 -> (forall x, valid_alloc (fscsr x) a2) ->
   exists c old r st0 st1 st2 st3,
     call frcsr a0 st = Ok (c, st0) /\ call (fscsr v) a1 st = Ok (old, st1) /\
     call (fscsr old) a2 st1 = Ok (r, st2) /\ call frcsr a3 st2 = Ok (c, st3)) /\
  (valid_alloc (fsrm v) a1 -> (forall x, valid_alloc (fsrm x) a2) ->
   exists c old r st0 st1 st2 st3,
     call frcsr a0 st = Ok (c, st0) /\ call (fsrm v) a1 st = Ok (old, st1) /\
     call (fsrm old) a2 st1 = Ok (r, st2) /\ call frcsr a3 st2 = Ok (c, st3)) /\
  (valid_alloc (fsflags v) a1 -> (forall x, valid_alloc (fsflags x) a2) ->
   exists c old r st0 st1 st2 st3,
     call frcsr a0 st = Ok (c, st0) /\ call (fsflags v) a1 st = Ok (old, st1) /\
     call (fsflags old) a2 st1 = Ok (r, st2) /\ call frcsr a3 st2 = Ok (c, st3)).
Proof.
  intros Hv H0 H3.
  destruct (call_frcsr a0 st H0) as (st0 & E0 & _).
  split; [|split]; intros H1 H2.
  - destruct (call_fscsr v a1 st H1 Hv) as (st1 & E1 & F1).
    destruct (call_fscsr (Z.land (fcsr st) 255) a2 st1 (H2 _) ltac:(unfold u32; land_bound)) as (st2 & E2 & F2).
    destruct (call_frcsr a3 st2 H3) as (st3 & E3 & _).
    eexists _, _, _, st0, st1, st2, st3.
    split; [exact E0|]. split; [exact E1|]. split; [exact E2|].
    rewrite E3, F2, <- !Z.land_assoc. reflexivity.
  - destruct (call_fsrm v a1 st H1 Hv) as (st1 & E1 & F1).
    destruct (call_fsrm (Z.land (Z.shiftr (fcsr st) 5) 7) a2 st1 (H2 _) ltac:(unfold u32; land_bound)) as (st2 & E2 & F2).
    destruct (call_frcsr a3 st2 H3) as (st3 & E3 & _).
    eexists _, _, _, st0, st1, st2, st3.
    split; [exact E0|]. split; [exact E1|]. split; [exact E2|].
    rewrite E3, F2, F1, fsrm_restore_bits. reflexivity.
  - destruct (call_fsflags v a1 st H1 Hv) as (st1 & E1 & F1).
    destruct (call_fsflags (Z.land (fcsr st) 31) a2 st1 (H2 _) ltac:(unfold u32; land_bound)) as (st2 & E2 & F2).
    destruct (call_frcsr a3 st2 H3) as (st3 & E3 & _).
    eexists _, _, _, st0, st1, st2, st3.
    split; [exact E0|]. split; [exact E1|]. split; [exact E2|].
    rewrite E3, F2, F1, fsflags_restore_bits. reflexivity.
Qed.


(** ** Witnesses of the further properties *)

Lemma variant_fence_event_witness :
  exists st',
    call (variant Hfence_vvma (Some 0x4000) None) [9] sample_hart = Ok (tt, st') /\
    fences st' = fences sample_hart ++ [Fence (family_kind Hfence_vvma) (Some 0x4000) None] /\
    gmem st' = gmem sample_hart /\ fcsr st' = fcsr sample_hart.
Proof.
  apply (variant_fence_event Hfence_vvma (Some 0x4000) None [9] sample_hart);
    [reflexivity | cbn; unfold usize, XLEN; lia | exact I].
Defined.

Lemma svinval_sequence_witness :
  exists st1 st2 st3,
    call sfence_w_inval [] sample_hart = Ok (tt, st1) /\
    call (sinval_vma 0x4000 3) [5; 6] st1 = Ok (tt, st2) /\
    call sfence_inval_ir [] st2 = Ok (tt, st3) /\
    fences st3 = fences sample_hart ++ [Fence SFENCE_W_INVAL None None;
                                        Fence SINVAL_VMA (Some 0x4000) (Some 3);
                                        Fence SFENCE_INVAL_IR None None] /\
    gmem st3 = gmem sample_hart.
Proof.
  apply (svinval_sequence 0x4000 3 [5; 6] sample_hart);
    [reflexivity | unfold usize, XLEN; lia | unfold usize, XLEN; lia].
Defined.




Lemma guest_store_frame_witness :
  exists st',
    call (store_fn HSV_B 0x2000 (-1)) [5; 6] sample_hart = Ok (tt, st') /\
    (forall b, (forall k, (k < store_width HSV_B)%nat -> b <> wrap (0x2000 + Z.of_nat k)) ->
               gmem st' !! b = gmem sample_hart !! b) /\
    (forall b, is_Some (gmem st' !! b) <-> is_Some (gmem sample_hart !! b)) /\
    fcsr st' = fcsr sample_hart /\ fences st' = fences sample_hart.
Proof.
  eexists. split; [reflexivity|].
  apply (guest_store_frame HSV_B 0x2000 (-1) [5; 6] sample_hart);
    [reflexivity | unfold usize, XLEN; lia | reflexivity].
Defined.

Lemma signed_unsigned_load_agree_witness :
  exists st1 st2,
    call (load_fn HLV_B 0x2000) [5; 6] sample_hart = Ok (-1, st1) /\
    call (load_fn HLV_BU 0x2000) [7; 8] sample_hart = Ok (255, st2) /\
    0 <= 255 < 2 ^ (8 * Z.of_nat (load_width HLV_BU)) /\
    -1 = sext (8 * Z.of_nat (load_width HLV_BU)) 255.
Proof.
  eexists _, _. split; [reflexivity|]. split; [reflexivity|].
  eapply (signed_unsigned_load_agree HLV_B HLV_BU 0x2000 [5; 6] [7; 8] sample_hart);
    [reflexivity | reflexivity | reflexivity | reflexivity | reflexivity
    | unfold usize, XLEN; lia | reflexivity | reflexivity].
Defined.

Lemma fp_csr_bounded_no_memory_witness :
  exists r st',
    call (fp_csr (FSRM 5)) [5; 6] sample_hart = Ok (r, st') /\
    (0 <= r < 2 ^ fp_csr_bits (FSRM 5) /\ gmem st' = gmem sample_hart /\
     fences st' = fences sample_hart).
Proof.
  apply (fp_csr_bounded_no_memory (FSRM 5) [5; 6] sample_hart);
    [reflexivity | cbn; unfold u32; lia].
Defined.

Lemma fp_field_write_read_witness :
  (exists r st1 st2,
     call (fsrm 0x1234) [5; 6] sample_hart = Ok (r, st1) /\
     call frrm [7] st1 = Ok (Z.land 0x1234 7, st2)) /\
  (exists r st1 st2,
     call (fsflags 0x1234) [5; 6] sample_hart = Ok (r, st1) /\
     call frflags [7] st1 = Ok (Z.land 0x1234 31, st2)).
Proof.
  destruct (fp_field_write_read 0x1234 [5; 6] [7] sample_hart ltac:(unfold u32; lia)) as [A B].
  split; [apply A | apply B]; reflexivity.
Defined.

Lemma fscsr_then_fields_witness :
  exists r st1 st2 st3,
    call (fscsr 0xAB) [5; 6] sample_hart = Ok (r, st1) /\
    call frrm [7] st1 = Ok (Z.land (Z.shiftr 0xAB 5) 7, st2) /\
    call frflags [8] st1 = Ok (Z.land 0xAB 31, st3).
Proof.
  apply (fscsr_then_fields 0xAB [5; 6] [7] [8] sample_hart);
    [unfold u32; lia | reflexivity | reflexivity | reflexivity].
Defined.

Lemma fp_csr_save_restore_witness :
  (exists c old r st0 st1 st2 st3,
     call frcsr [5] sample_hart = Ok (c, st0) /\ call (fscsr 0xAB) [5; 6] sample_hart = Ok (old, st1) /\
     call (fscsr old) [7; 8] st1 = Ok (r, st2) /\ call frcsr [9] st2 = Ok (c, st3)) /\
  (exists c old r st0 st1 st2 st3,
     call frcsr [5] sample_hart = Ok (c, st0) /\ call (fsrm 0xAB) [5; 6] sample_hart = Ok (old, st1) /\
     call (fsrm old) [7; 8] st1 = Ok (r, st2) /\ call frcsr [9] st2 = Ok (c, st3)) /\
  (exists c old r st0 st1 st2 st3,
     call frcsr [5] sample_hart = Ok (c, st0) /\ call (fsflags 0xAB) [5; 6] sample_hart = Ok (old, st1) /\
     call (fsflags old) [7; 8] st1 = Ok (r, st2) /\ call frcsr [9] st2 = Ok (c, st3)).
Proof.
  destruct (fp_csr_save_restore 0xAB [5] [5; 6] [7; 8] [9] sample_hart
              ltac:(unfold u32; lia) eq_refl eq_refl) as (A & B & C).
  split; [|split]; [apply A | apply B | apply C]; first [reflexivity | intros; reflexivity].
Defined.

